(** * hh_parser: the scrape-parse-persist pipeline of [app/main.py]

    A shallow embedding of the two scraping endpoints of the service
    ([get_vacancies] and [get_applicants]) together with the parts of
    Python, BeautifulSoup and FastAPI they rely on, followed by the
    properties of the pipeline.

    Conventions.
    - A Python [str] is a list of Unicode code points ([N]); [bytes] is a
      list of [Byte.byte].
    - A Python exception is a value of [exn]; a computation that may raise
      returns a [result].
    - The relational store and the debugging file written by the vacancy
      handler form the [World] that the handlers thread through. *)

From Stdlib Require Import List NArith ZArith Lia Bool String Ascii.
From Stdlib Require Import Strings.Byte.
Import ListNotations.

Set Implicit Arguments.

(** ** Python strings *)

Definition codepoint := N.
Definition str := list codepoint.
Definition bytes := list byte.

Module Py.

Open Scope N_scope.

(** An ASCII literal of the source as a [str]. *)
Definition lit (s : string) : str :=
  map N_of_ascii (list_ascii_of_string s).

(** [a == b] on strings *)
Fixpoint eqb (a b : str) : bool :=
  match a, b with
  | [], [] => true
  | x :: a', y :: b' => (x =? y) && eqb a' b'
  | _, _ => false
  end.

(** [s.startswith(p)] *)
Fixpoint startswith (p s : str) : bool :=
  match p, s with
  | [], _ => true
  | _ :: _, [] => false
  | a :: p', b :: s' => (a =? b) && startswith p' s'
  end.

(** The scan of [str.replace] for a non-empty [old]: [skip] counts the
    characters of the occurrence just replaced that are still to be passed
    over. Occurrences are taken left to right and do not overlap. *)
Fixpoint replace_scan (old new : str) (skip : nat) (s : str) : str :=
  match s with
  | [] => []
  | c :: s' =>
      match skip with
      | S k => replace_scan old new k s'
      | O =>
          if startswith old s
          then new ++ replace_scan old new (pred (List.length old)) s'
          else c :: replace_scan old new O s'
      end
  end.

(** [s.replace(old, new)]; with an empty [old], [new] is put before every
    character and at the end. *)
Definition replace (old new s : str) : str :=
  match old with
  | [] => new ++ flat_map (fun c => c :: new) s
  | _ :: _ => replace_scan old new O s
  end.

(** [sep.join(items)] *)
Fixpoint join (sep : str) (items : list str) : str :=
  match items with
  | [] => []
  | [x] => x
  | x :: rest => x ++ sep ++ join sep rest
  end.

(** Truth value of a [str] and of an optional [str] ([None] is false, and
    so is the empty string). *)
Definition truthy (s : str) : bool :=
  match s with [] => false | _ :: _ => true end.

Definition truthy_opt (o : option str) : bool :=
  match o with None => false | Some s => truthy s end.

(** *** [int(str)]

    CPython turns the string into ASCII first (every Unicode white space
    becomes a space, every Unicode decimal digit its ASCII digit, anything
    else non-ASCII a question mark that ends the string) and then reads a
    base-10 literal: white space, an optional sign, digits with single
    underscores between them, white space. *)

(** [Py_UNICODE_ISSPACE] *)
Definition isspace (c : codepoint) : bool :=
  ((9 <=? c) && (c <=? 13)) || ((28 <=? c) && (c <=? 32))
  || (c =? 133) || (c =? 160) || (c =? 5760)
  || ((8192 <=? c) && (c <=? 8202))
  || (c =? 8232) || (c =? 8233) || (c =? 8239) || (c =? 8287)
  || (c =? 12288).

(** The code points of the digit zero of every block of decimal digits
    (category Nd) of the Unicode 14.0 database of CPython 3.11. *)
Definition decimal_zeros : list codepoint :=
  [48; 1632; 1776; 1984; 2406; 2534; 2662; 2790; 2918; 3046; 3174; 3302;
   3430; 3558; 3664; 3792; 3872; 4160; 4240; 6112; 6160; 6470; 6608; 6784;
   6800; 6992; 7088; 7232; 7248; 42528; 43216; 43264; 43472; 43504; 43600;
   44016; 65296; 66720; 68912; 69734; 69872; 69942; 70096; 70384; 70736;
   70864; 71248; 71360; 71472; 71904; 72016; 72784; 73040; 73120; 92768;
   92864; 93008; 120782; 120792; 120802; 120812; 120822; 123200; 123632;
   125264; 130032].

Fixpoint decimal_in (zeros : list codepoint) (c : codepoint) : option N :=
  match zeros with
  | [] => None
  | z :: zeros' =>
      if (z <=? c) && (c <=? z + 9) then Some (c - z)
      else decimal_in zeros' c
  end.

(** [Py_UNICODE_TODECIMAL] *)
Definition to_decimal (c : codepoint) : option N :=
  decimal_in decimal_zeros c.

(** [_PyUnicode_TransformDecimalAndSpaceToASCII] *)
Fixpoint transform_decimal_and_space (s : str) : str :=
  match s with
  | [] => []
  | ch :: s' =>
      if ch <? 127 then ch :: transform_decimal_and_space s'
      else if isspace ch then 32 :: transform_decimal_and_space s'
      else match to_decimal ch with
           | Some d => (48 + d) :: transform_decimal_and_space s'
           | None => [63]
           end
  end.

(** [Py_ISSPACE], the white space of C *)
Definition c_isspace (c : codepoint) : bool :=
  ((9 <=? c) && (c <=? 13)) || (c =? 32).

Definition c_isdigit (c : codepoint) : bool :=
  (48 <=? c) && (c <=? 57).

Fixpoint skip_spaces (s : str) : str :=
  match s with
  | c :: s' => if c_isspace c then skip_spaces s' else s
  | [] => []
  end.

(** The digit scan of [PyLong_FromString]: [prev] is the character read
    last, [digits] the number of digits read, [value] their value. *)
Fixpoint scan_digits (prev : codepoint) (digits : N) (value : Z) (s : str)
  : option (N * Z * str) :=
  match s with
  | c :: s' =>
      if c =? 95 then
        if prev =? 95 then None else scan_digits c digits value s'
      else if c_isdigit c then
        scan_digits c (digits + 1) (10 * value + Z.of_N (c - 48))%Z s'
      else if prev =? 95 then None else Some (digits, value, s)
  | [] => if prev =? 95 then None else Some (digits, value, [])
  end.

(** The threshold under which the digit limit is never checked. *)
Definition MAX_STR_DIGITS_THRESHOLD : N := 640.

(** The optional sign in front of the digits. *)
Definition read_sign (s : str) : Z * str :=
  match s with
  | c :: r =>
      if c =? 43 then (1%Z, r)
      else if c =? 45 then ((-1)%Z, r)
      else (1%Z, s)
  | [] => (1%Z, s)
  end.

Definition leading_underscore (s : str) : bool :=
  match s with
  | c :: _ => c =? 95
  | [] => false
  end.

(** The limit on the number of digits: more than the threshold and more
    than a non-zero [max_str_digits] is refused. *)
Definition too_many_digits (max_str_digits digits : N) : bool :=
  (MAX_STR_DIGITS_THRESHOLD <? digits)
  && (0 <? max_str_digits) && (max_str_digits <? digits).

(** [PyLong_FromString(s, 10)] on the ASCII form; [None] is [ValueError].
    [max_str_digits] is [sys.get_int_max_str_digits()], 0 for no limit. *)
Definition long_from_string (max_str_digits : N) (s : str) : option Z :=
  let '(sign, s2) := read_sign (skip_spaces s) in
  if leading_underscore s2 then None
  else
    match scan_digits 0 0 0%Z s2 with
    | None => None
    | Some (digits, value, rest) =>
        if too_many_digits max_str_digits digits then None
        else if digits =? 0 then None
        else match skip_spaces rest with
             | [] => Some (sign * value)%Z
             | _ :: _ => None
             end
    end.

(** [int(s)] for a [str]; [None] is [ValueError], the only exception it
    raises on a string. *)
Definition int (max_str_digits : N) (s : str) : option Z :=
  long_from_string max_str_digits (transform_decimal_and_space s).

End Py.

(** The currency token ['руб.'] and the space of the salary clean-up. *)
Definition rub : str := [1088; 1091; 1073; 46]%N.
Definition space : str := [32]%N.
Definition nbsp : codepoint := 160%N.
Definition tab : codepoint := 9%N.


(** ** Exceptions *)

Inductive exn :=
| TypeError
| LookupError
| UnicodeDecodeError
| HTTPException (status_code : Z) (detail : str)
| ResponseValidationError.

Inductive result (A : Type) :=
| Ok (a : A)
| Raise (e : exn).

Arguments Ok {A} a.
Arguments Raise {A} e.

(** ** The UTF-8 codec, [errors='strict'] *)

Module Utf8.

Open Scope N_scope.

Definition continuation (b : N) : bool := (128 <=? b) && (b <=? 191).

(** The second byte of a three-byte sequence: no overlong form (lead E0),
    no surrogate (lead ED). *)
Definition second_of_3 (b0 b1 : N) : bool :=
  if b0 =? 224 then (160 <=? b1) && (b1 <=? 191)
  else if b0 =? 237 then (128 <=? b1) && (b1 <=? 159)
  else continuation b1.

(** The second byte of a four-byte sequence: no overlong form (lead F0),
    nothing above U+10FFFF (lead F4). *)
Definition second_of_4 (b0 b1 : N) : bool :=
  if b0 =? 240 then (144 <=? b1) && (b1 <=? 191)
  else if b0 =? 244 then (128 <=? b1) && (b1 <=? 143)
  else continuation b1.

Fixpoint decode_values (bs : list N) : option str :=
  match bs with
  | [] => Some []
  | b0 :: r0 =>
      if b0 <? 128 then option_map (cons b0) (decode_values r0)
      else if (194 <=? b0) && (b0 <=? 223) then
        match r0 with
        | b1 :: r1 =>
            if continuation b1
            then option_map (cons ((b0 - 192) * 64 + (b1 - 128)))
                            (decode_values r1)
            else None
        | _ => None
        end
      else if (224 <=? b0) && (b0 <=? 239) then
        match r0 with
        | b1 :: b2 :: r2 =>
            if second_of_3 b0 b1 && continuation b2
            then option_map
                   (cons ((b0 - 224) * 4096 + (b1 - 128) * 64 + (b2 - 128)))
                   (decode_values r2)
            else None
        | _ => None
        end
      else if (240 <=? b0) && (b0 <=? 244) then
        match r0 with
        | b1 :: b2 :: b3 :: r3 =>
            if second_of_4 b0 b1 && continuation b2 && continuation b3
            then option_map
                   (cons ((b0 - 240) * 262144 + (b1 - 128) * 4096
                          + (b2 - 128) * 64 + (b3 - 128)))
                   (decode_values r3)
            else None
        | _ => None
        end
      else None
  end.

(** [content.decode('utf-8')]; [None] is [UnicodeDecodeError]. *)
Definition decode (content : bytes) : option str :=
  decode_values (map Byte.to_N content).

End Utf8.

(** ** BeautifulSoup

    The document tree as the handlers see it: tags with their classes and
    contents, and the strings between them. Comments and the other node
    kinds are left out: neither a class selector nor [.text] looks at
    them. *)

Module Bs4.

#[warnings="-register-all"]
Inductive PageElement :=
| NavigableString (s : str)
| Tag (name : str) (class_ : list str) (contents : list PageElement).

(** The nodes below an element, in document order. *)
Fixpoint descendants (e : PageElement) : list PageElement :=
  match e with
  | NavigableString _ => []
  | Tag _ _ contents => flat_map (fun c => c :: descendants c) contents
  end.

Definition has_class (cls : str) (e : PageElement) : bool :=
  match e with
  | NavigableString _ => false
  | Tag _ class_ _ => existsb (Py.eqb cls) class_
  end.

(** [e.select(selector)] for the selectors of the source, which all are a
    single class selector [.name]: the tags below [e] that carry the
    class, in document order. Another selector is outside the model and
    selects nothing. *)
Definition select (selector : str) (e : PageElement) : list PageElement :=
  match selector with
  | 46%N :: cls => filter (has_class cls) (descendants e)
  | _ => []
  end.

(** [e.select_one(selector)] *)
Definition select_one (selector : str) (e : PageElement)
  : option PageElement :=
  hd_error (select selector e).

(** [e.text]: the strings below [e], concatenated. *)
Fixpoint text (e : PageElement) : str :=
  match e with
  | NavigableString s => s
  | Tag _ _ contents => flat_map text contents
  end.

End Bs4.

(** ** The tables of the store *)

Module Vacancy.
Record t := make
  { id : option Z;
    title : option str;
    description : option str;
    skills : option str;
    employment_format : option str;
    salary : option Z }.
End Vacancy.

Module Applicant.
Record t := make
  { id : option Z;
    name : option str;
    skills : option str }.
End Applicant.

(** The two tables in insertion order, each with the last value of its
    identity sequence. A write always succeeds: failures of the database
    engine are outside the model. *)
Record Database := mkDatabase
  { vacancies : list Vacancy.t;
    vacancies_id_seq : Z;
    applicants : list Applicant.t;
    applicants_id_seq : Z }.

(** [db.add(vac); db.commit(); db.refresh(vac)] *)
Definition add_vacancy (vac : Vacancy.t) (db : Database)
  : Database * Vacancy.t :=
  let i := (vacancies_id_seq db + 1)%Z in
  let vac' :=
    Vacancy.make (Some i) (Vacancy.title vac) (Vacancy.description vac)
                 (Vacancy.skills vac) (Vacancy.employment_format vac)
                 (Vacancy.salary vac) in
  (mkDatabase (vacancies db ++ [vac']) i
              (applicants db) (applicants_id_seq db),
   vac').

(** [db.add(appl); db.commit(); db.refresh(appl)] *)
Definition add_applicant (appl : Applicant.t) (db : Database)
  : Database * Applicant.t :=
  let i := (applicants_id_seq db + 1)%Z in
  let appl' :=
    Applicant.make (Some i) (Applicant.name appl) (Applicant.skills appl) in
  (mkDatabase (vacancies db) (vacancies_id_seq db)
              (applicants db ++ [appl']) i,
   appl').

(** [db.query(Vacancy).count()] and [db.query(Applicant).count()] *)
Definition count_vacancies (db : Database) : nat :=
  List.length (vacancies db).


(** What a handler can change: the store and the file
    [page_content.html]. *)
Record World := mkWorld
  { database : Database;
    page_content_html : option str }.

(** ** What the handlers call into *)

Record Response := mkResponse
  { status_code : Z;
    content : bytes }.

(** The collaborators of the pipeline and the settings of the
    interpreter:
    - [requests_get url] is the answer of the upstream site;
    - [chardet_statistical] is the statistical guess of [chardet] on a
      non-empty body;
    - [codecs_lookup label] is the decoder registered under a label other
      than ['utf-8'], [None] when there is none; a decoder returns [None]
      when the bytes are not valid for it;
    - [html_parser] builds the document tree of a text;
    - [int_max_str_digits] is [sys.get_int_max_str_digits()]. *)
Class Environment := mkEnvironment
  { requests_get : str -> Response;
    chardet_statistical : bytes -> option str;
    codecs_lookup : str -> option (bytes -> option str);
    html_parser : str -> Bs4.PageElement;
    int_max_str_digits : N }.

(** ** The handlers *)

Section Handlers.

Context {env : Environment}.

(** [chardet.detect(content)['encoding']]: without data the detector
    reports no encoding. *)
Definition chardet_detect (content : bytes) : option str :=
  match content with
  | [] => None
  | _ :: _ => chardet_statistical content
  end.

Definition utf_8 : str := Py.lit "utf-8".

(** [content.decode(encoding)]: a label that is not a string is a
    [TypeError], an unknown label a [LookupError], bytes that the codec
    rejects a [UnicodeDecodeError]. *)
Definition decode (content : bytes) (encoding : option str) : result str :=
  match encoding with
  | None => Raise TypeError
  | Some label =>
      if Py.eqb label utf_8 then
        match Utf8.decode content with
        | Some s => Ok s
        | None => Raise UnicodeDecodeError
        end
      else
        match codecs_lookup label with
        | None => Raise LookupError
        | Some codec =>
            match codec content with
            | Some s => Ok s
            | None => Raise UnicodeDecodeError
            end
        end
  end.

(** Lines 107 to 117 and 172 to 182: the body is decoded as UTF-8, the
    result dropped, and decoded again under the detected encoding. *)
Definition detect_and_decode (content : bytes) : result str :=
  match decode content (Some utf_8) with
  | Raise e => Raise e
  | Ok _ =>
      let encoding := chardet_detect content in
      decode content encoding
  end.

(** Line 135: the sidebar text without the currency token and without
    spaces. *)
Definition salary_text (sidebar : str) : str :=
  Py.replace space [] (Py.replace rub [] sidebar).

(** Lines 135 to 139: the salary of a sidebar text, [None] when [int]
    raises [ValueError]. *)
Definition parse_salary (sidebar : str) : option Z :=
  match Py.int int_max_str_digits (salary_text sidebar) with
  | Some n => Some n
  | None => None
  end.

(** Lines 131 to 139 *)
Definition salary_of (salary_element : option Bs4.PageElement) : option Z :=
  match salary_element with
  | Some element => parse_salary (Bs4.text element)
  | None => None
  end.

(** [x.select_one(selector).text if x.select_one(selector) else None]; a
    tag is always true. *)
Definition text_of_one (selector : str) (x : Bs4.PageElement) : option str :=
  match Bs4.select_one selector x with
  | Some element => Some (Bs4.text element)
  | None => None
  end.

(** [[skill.text for skill in x.select(selector)] if x.select(selector)
    else []] *)
Definition texts_of (selector : str) (x : Bs4.PageElement) : list str :=
  match Bs4.select selector x with
  | [] => []
  | found => map Bs4.text found
  end.

Definition comma_space : str := Py.lit ", ".

(** The body of the loop of [get_vacancies], lines 127 to 156, on the
    store and the list built so far. *)
Definition vacancy_step (st : Database * list Vacancy.t)
           (vacancy : Bs4.PageElement) : Database * list Vacancy.t :=
  let '(db, vacancies) := st in
  let title := text_of_one (Py.lit ".vacancy-serp-item__title") vacancy in
  let description :=
    text_of_one (Py.lit ".vacancy-serp-item__snippet") vacancy in
  let skills := texts_of (Py.lit ".bloko-tag__section_text") vacancy in
  let employment_format :=
    text_of_one (Py.lit ".vacancy-serp-item__meta-info") vacancy in
  let salary_element :=
    Bs4.select_one (Py.lit ".vacancy-serp-item__sidebar") vacancy in
  let salary := salary_of salary_element in
  if Py.truthy_opt title && Py.truthy_opt description then
    let vac :=
      Vacancy.make None title description
                   (Some (Py.join comma_space skills))
                   employment_format salary in
    let '(db', vac') := add_vacancy vac db in
    (db', vacancies ++ [vac'])
  else (db, vacancies).

(** The body of the loop of [get_applicants], lines 188 to 203 *)
Definition applicant_step (st : Database * list Applicant.t)
           (applicant : Bs4.PageElement) : Database * list Applicant.t :=
  let '(db, applicants) := st in
  let name := text_of_one (Py.lit ".resume-search-item__fullname") applicant in
  let skills := texts_of (Py.lit ".bloko-tag__section_text") applicant in
  if Py.truthy_opt name then
    let appl :=
      Applicant.make None name (Some (Py.join comma_space skills)) in
    let '(db', appl') := add_applicant appl db in
    (db', applicants ++ [appl'])
  else (db, applicants).

Definition fetch_error : str := Py.lit "Error fetching data from hh.ru".

(** [get_vacancies(query, db)], lines 97 to 159 *)
Definition get_vacancies (query : str) (w : World)
  : World * result (list Vacancy.t) :=
  let url := Py.lit "https://hh.ru/search/vacancy?text=" ++ query in
  let response := requests_get url in
  if negb (status_code response =? 200)%Z then
    (w, Raise (HTTPException (status_code response) fetch_error))
  else
    match detect_and_decode (content response) with
    | Raise e => (w, Raise e)
    | Ok decoded_content =>
        let soup := html_parser decoded_content in
        let '(db', vacancies) :=
          fold_left vacancy_step
                    (Bs4.select (Py.lit ".vacancy-serp-item") soup)
                    (database w, []) in
        (mkWorld db' (Some decoded_content), Ok vacancies)
    end.

(** [get_applicants(query, db)], lines 162 to 206 *)
Definition get_applicants (query : str) (w : World)
  : World * result (list Applicant.t) :=
  let url := Py.lit "https://hh.ru/search/resume?text=" ++ query in
  let response := requests_get url in
  if negb (status_code response =? 200)%Z then
    (w, Raise (HTTPException (status_code response) fetch_error))
  else
    match detect_and_decode (content response) with
    | Raise e => (w, Raise e)
    | Ok decoded_content =>
        let soup := html_parser decoded_content in
        let '(db', applicants) :=
          fold_left applicant_step
                    (Bs4.select (Py.lit ".resume-serp-item") soup)
                    (database w, []) in
        (mkWorld db' (page_content_html w), Ok applicants)
    end.



End Handlers.

(** ** The endpoints

    What the framework does around a handler: the returned list is
    validated against the declared response model, and an exception
    becomes an HTTP response. *)










Section Endpoints.

Context {env : Environment}.



End Endpoints.

(** The results of [f] on the elements on which it has one, in order. *)
Fixpoint map_filter {A B : Type} (f : A -> option B) (l : list A) : list B :=
  match l with
  | [] => []
  | x :: l' =>
      match f x with
      | Some y => y :: map_filter f l'
      | None => map_filter f l'
      end
  end.

(** ** The pipeline in the words of the specification

    The Record Normalizer of the specification, [normalize(FieldBlock)]:
    the record of a block, without identity, or nothing when a required
    field is missing. The handlers do not have it as a function; the
    theorems below relate their loops to it. *)

Section Normalizer.

Context {env : Environment}.

Definition normalize_vacancy (block : Bs4.PageElement) : option Vacancy.t :=
  match text_of_one (Py.lit ".vacancy-serp-item__title") block,
        text_of_one (Py.lit ".vacancy-serp-item__snippet") block with
  | Some (c :: title), Some (d :: description) =>
      Some (Vacancy.make
              None (Some (c :: title)) (Some (d :: description))
              (Some (Py.join comma_space
                       (map Bs4.text
                            (Bs4.select (Py.lit ".bloko-tag__section_text")
                                        block))))
              (text_of_one (Py.lit ".vacancy-serp-item__meta-info") block)
              (salary_of
                 (Bs4.select_one (Py.lit ".vacancy-serp-item__sidebar")
                                 block)))
  | _, _ => None
  end.

Definition normalize_applicant (block : Bs4.PageElement)
  : option Applicant.t :=
  match text_of_one (Py.lit ".resume-search-item__fullname") block with
  | Some (c :: name) =>
      Some (Applicant.make
              None (Some (c :: name))
              (Some (Py.join comma_space
                       (map Bs4.text
                            (Bs4.select (Py.lit ".bloko-tag__section_text")
                                        block)))))
  | _ => None
  end.

(** The answers of the upstream site to the two searches, and the item
    blocks of a decoded page. *)
Definition vacancy_search (query : str) : Response :=
  requests_get (Py.lit "https://hh.ru/search/vacancy?text=" ++ query).

Definition resume_search (query : str) : Response :=
  requests_get (Py.lit "https://hh.ru/search/resume?text=" ++ query).

Definition vacancy_blocks (text : str) : list Bs4.PageElement :=
  Bs4.select (Py.lit ".vacancy-serp-item") (html_parser text).

Definition applicant_blocks (text : str) : list Bs4.PageElement :=
  Bs4.select (Py.lit ".resume-serp-item") (html_parser text).

(** The records that one run of the vacancy pipeline has to insert: those
    of the blocks of the page, none when the fetch or the decoding
    fails. *)
Definition scraped_vacancies (query : str) : list Vacancy.t :=
  if negb (status_code (vacancy_search query) =? 200)%Z then []
  else match detect_and_decode (content (vacancy_search query)) with
       | Raise _ => []
       | Ok text => map_filter normalize_vacancy (vacancy_blocks text)
       end.

End Normalizer.

(** Insertion of records one after the other: each takes the next value
    of the identity sequence. *)
Fixpoint with_ids (seq : Z) (records : list Vacancy.t) : list Vacancy.t :=
  match records with
  | [] => []
  | r :: rest =>
      Vacancy.make (Some (seq + 1)%Z) (Vacancy.title r)
                   (Vacancy.description r) (Vacancy.skills r)
                   (Vacancy.employment_format r) (Vacancy.salary r)
      :: with_ids (seq + 1) rest
  end.

Fixpoint applicants_with_ids (seq : Z) (records : list Applicant.t)
  : list Applicant.t :=
  match records with
  | [] => []
  | r :: rest =>
      Applicant.make (Some (seq + 1)%Z) (Applicant.name r)
                     (Applicant.skills r)
      :: applicants_with_ids (seq + 1) rest
  end.

(** The store after the insertion of a list of records that have no
    identity yet. *)
Definition insert_vacancies (db : Database) (records : list Vacancy.t)
  : Database :=
  mkDatabase (vacancies db ++ with_ids (vacancies_id_seq db) records)
             (vacancies_id_seq db + Z.of_nat (List.length records))
             (applicants db) (applicants_id_seq db).

Definition insert_applicants (db : Database) (records : list Applicant.t)
  : Database :=
  mkDatabase (vacancies db) (vacancies_id_seq db)
             (applicants db
              ++ applicants_with_ids (applicants_id_seq db) records)
             (applicants_id_seq db + Z.of_nat (List.length records)).

(** A record without its identity. *)
Definition forget_id (r : Vacancy.t) : Vacancy.t :=
  Vacancy.make None (Vacancy.title r) (Vacancy.description r)
               (Vacancy.skills r) (Vacancy.employment_format r)
               (Vacancy.salary r).



(** The tokens with the separator between each two of them. *)
Fixpoint intersperse (sep : str) (tokens : list str) : list str :=
  match tokens with
  | [] => []
  | t :: rest =>
      match rest with
      | [] => [t]
      | _ :: _ => t :: sep :: intersperse sep rest
      end
  end.

(** The number that a string of ASCII digits spells, and the number that
    a string of Unicode decimal digits spells. *)
Definition ascii_value (ds : str) : Z :=
  fold_left (fun v c => (10 * v + Z.of_N (c - 48))%Z) ds 0%Z.

(** The ASCII digit of a Unicode decimal digit. *)
Definition ascii_of_decimal (c : codepoint) : codepoint :=
  match Py.to_decimal c with
  | Some d => (48 + d)%N
  | None => 63%N
  end.

Definition decimal_digit (c : codepoint) : bool :=
  match Py.to_decimal c with Some _ => true | None => false end.

Definition decimal_value (ds : str) : Z :=
  fold_left
    (fun v c =>
       (10 * v + Z.of_N (match Py.to_decimal c with
                         | Some d => d
                         | None => 0
                         end))%Z)
    ds 0%Z.


(** The texts of the pattern [^[\d\s]+руб\.$]: decimal digits and white
    space, at least one character, then the currency token. *)
Definition salary_pattern (t : str) : Prop :=
  exists body,
    t = body ++ rub /\ body <> []
    /\ forallb (fun c => decimal_digit c || Py.isspace c) body = true.

(** A character of the currency token or a space: the only characters the
    salary clean-up can remove. *)
Definition cleaned_away (c : codepoint) : bool :=
  ((c =? 1088) || (c =? 1091) || (c =? 1073) || (c =? 46) || (c =? 32))%N.

(** ** Sample pages and environments

    Small documents and upstream answers on which the statements below
    are exercised. *)

Module Sample.

Import Bs4.

Definition element (cls : string) (contents : list PageElement)
  : PageElement :=
  Tag (Py.lit "div") [Py.lit cls] contents.

Definition leaf (cls : string) (s : str) : PageElement :=
  element cls [NavigableString s].

Definition document (blocks : list PageElement) : PageElement :=
  Tag (Py.lit "[document]") [] blocks.

(** An upstream that answers every request with the same status and body,
    a detector that reports [label] for a non-empty body, no codec besides
    UTF-8, a parser that yields [page], and the default digit limit. *)
Definition fixed (code : Z) (body : bytes) (label : option str)
           (page : PageElement) : Environment :=
  mkEnvironment (fun _ => mkResponse code body)
                (fun _ => label)
                (fun _ => None)
                (fun _ => page)
                4300.

Definition body_ok : bytes := [x68; x68]%byte.

Definition serving (page : PageElement) : Environment :=
  fixed 200 body_ok (Some utf_8) page.

(** A block with title and description only. *)
Definition engineer : PageElement :=
  element "vacancy-serp-item"
    [leaf "vacancy-serp-item__title" (Py.lit "Engineer");
     leaf "vacancy-serp-item__snippet" (Py.lit "Build stuff")].

(** A block with every field. *)
Definition developer : PageElement :=
  element "vacancy-serp-item"
    [leaf "vacancy-serp-item__title" (Py.lit "Developer");
     leaf "vacancy-serp-item__snippet" (Py.lit "Write code");
     leaf "bloko-tag__section_text" (Py.lit "Python");
     leaf "bloko-tag__section_text" (Py.lit "SQL");
     leaf "vacancy-serp-item__meta-info" (Py.lit "Remote");
     leaf "vacancy-serp-item__sidebar" (Py.lit "100 000 " ++ rub)].

(** A block whose sidebar carries a minus sign. *)
Definition debtor : PageElement :=
  element "vacancy-serp-item"
    [leaf "vacancy-serp-item__title" (Py.lit "Intern");
     leaf "vacancy-serp-item__snippet" (Py.lit "Pay to work");
     leaf "vacancy-serp-item__meta-info" (Py.lit "Office");
     leaf "vacancy-serp-item__sidebar" (Py.lit "-5 " ++ rub)].

(** A block without a title. *)
Definition untitled : PageElement :=
  element "vacancy-serp-item"
    [leaf "vacancy-serp-item__snippet" (Py.lit "Build stuff")].



Definition empty_world : World :=
  mkWorld (mkDatabase [] 0 [] 0) None.

End Sample.

(** What follows a piece of text cannot complete an occurrence of the
    currency token that began inside the piece. *)
Definition no_straddle (rest : str) : Prop :=
  forall x : str,
    x <> [] -> (List.length x < 4)%nat -> Py.startswith rub (x ++ rest) = false.

(** The digit scan of [int] stops in front of a string that is empty or
    begins with a character that is neither a digit nor an underscore. *)
Definition scan_stops (rest : str) : bool :=
  match rest with
  | [] => true
  | c :: _ => negb (c =? 95)%N && negb (Py.c_isdigit c)
  end.

(** ** Further notions: the store, the responses, the salary text *)

(** The records of the applicant path that one run has to insert. *)
Definition scraped_applicants {env : Environment} (query : str)
  : list Applicant.t :=
  if negb (status_code (resume_search query) =? 200)%Z then []
  else match detect_and_decode (content (resume_search query)) with
       | Raise _ => []
       | Ok text => map_filter normalize_applicant (applicant_blocks text)
       end.



(** Every row has an identity, no identity is above the last value of the
    sequence of its table, and no two rows of a table share one. *)
Definition identities_fresh (db : Database) : Prop :=
  NoDup (map Vacancy.id (vacancies db))
  /\ (forall r, In r (vacancies db) ->
                exists i, Vacancy.id r = Some i
                          /\ (i <= vacancies_id_seq db)%Z)
  /\ NoDup (map Applicant.id (applicants db))
  /\ (forall r, In r (applicants db) ->
                exists i, Applicant.id r = Some i
                          /\ (i <= applicants_id_seq db)%Z).

(** A row as the handlers store it: the required texts are there and not
    empty, the skills are a string, the identity is set. *)
Definition vacancy_well_formed (r : Vacancy.t) : Prop :=
  Py.truthy_opt (Vacancy.title r) = true
  /\ Py.truthy_opt (Vacancy.description r) = true
  /\ Vacancy.skills r <> None /\ Vacancy.id r <> None.

Definition applicant_well_formed (r : Applicant.t) : Prop :=
  Py.truthy_opt (Applicant.name r) = true
  /\ Applicant.skills r <> None /\ Applicant.id r <> None.

Definition rows_well_formed (db : Database) : Prop :=
  Forall vacancy_well_formed (vacancies db)
  /\ Forall applicant_well_formed (applicants db).



(** The characters of the ASCII form that [int] can read: white space, a
    sign, digits and the underscore. *)
Definition int_alphabet (c : codepoint) : bool :=
  Py.c_isspace c || Py.c_isdigit c
  || (c =? 43)%N || (c =? 45)%N || (c =? 95)%N.

(** A character that no salary text can hold: it is not removed by the
    clean-up and [int] has no use for it. *)
Definition foreign (c : codepoint) : bool :=
  negb (cleaned_away c) && negb (Py.isspace c) && negb (decimal_digit c)
  && negb ((c =? 43) || (c =? 45) || (c =? 95))%N.

(** White space that [int] strips from both ends of the text: all of it
    but the four separators U+001C to U+001F, which are white space for
    [str] and not for the reader of the digits. *)
Definition blank (c : codepoint) : bool :=
  Py.isspace c && negb ((28 <=? c) && (c <=? 31))%N.

(** A character that [int] cannot read at all: no white space, no digit,
    no sign, no underscore. *)
Definition reads_nothing (c : codepoint) : bool :=
  negb (Py.isspace c) && negb (decimal_digit c)
  && negb ((c =? 43) || (c =? 45) || (c =? 95))%N.

(** The sign that [int] reads in front of the digits: none, a plus or a
    minus. *)
Definition sign_value (sign : str) : option Z :=
  match sign with
  | [] => Some 1%Z
  | [c] => if (c =? 43)%N then Some 1%Z
           else if (c =? 45)%N then Some (-1)%Z else None
  | _ => None
  end.

(** The underscore that [int] takes between two digits. *)
Definition underscore : str := [95]%N.

Unset Implicit Arguments.

(** Induction on a document tree, with the property at hand for every
    node of the contents of a tag. *)
Fixpoint page_element_ind (P : Bs4.PageElement -> Prop)
         (Hstring : forall s, P (Bs4.NavigableString s))
         (Htag : forall name class_ contents,
             Forall P contents -> P (Bs4.Tag name class_ contents))
         (e : Bs4.PageElement) : P e :=
  match e with
  | Bs4.NavigableString s => Hstring s
  | Bs4.Tag name class_ contents =>
      Htag name class_ contents
           ((fix all (l : list Bs4.PageElement) : Forall P l :=
               match l with
               | [] => Forall_nil P
               | x :: l' =>
                   Forall_cons x (page_element_ind P Hstring Htag x) (all l')
               end) contents)
  end.

Set Implicit Arguments.

(** A Unicode scalar value: a code point that is no surrogate. *)
Definition scalar_value (c : codepoint) : bool :=
  ((c <? 55296) || ((57343 <? c) && (c <? 1114112)))%N.

(** * Properties *)

Unset Implicit Arguments.

(** ** Strings *)

Open Scope N_scope.

Example int_examples :
  Py.int 4300 (Py.lit "12") = Some 12%Z
  /\ Py.int 4300 (nbsp :: Py.lit "12") = Some 12%Z
  /\ Py.int 4300 (Py.lit "1" ++ nbsp :: Py.lit "000") = None
  /\ Py.int 4300 (Py.lit "1_000") = Some 1000%Z
  /\ Py.int 4300 (Py.lit "_1") = None
  /\ Py.int 4300 (Py.lit "1_") = None
  /\ Py.int 4300 (Py.lit "1__0") = None
  /\ Py.int 4300 (Py.lit "-5") = Some (-5)%Z
  /\ Py.int 4300 (Py.lit "+5") = Some 5%Z
  /\ Py.int 4300 (Py.lit "- 5") = None
  /\ Py.int 4300 ([] : str) = None
  /\ Py.int 4300 (28 :: Py.lit "12") = None
  /\ Py.int 4300 (Py.lit "12" ++ [31]) = None
  /\ Py.int 4300 [1633; 1634] = Some 12%Z
  /\ Py.int 4300 (Py.lit "-0") = Some 0%Z
  /\ Py.int 4300 (Py.lit "0012") = Some 12%Z
  /\ Py.int 4300 (tab :: Py.lit "12" ++ [10]) = Some 12%Z
  /\ Py.int 4300 (Py.lit "1" ++ tab :: Py.lit "000") = None
  /\ Py.int 4300 (127 :: Py.lit "1") = None
  /\ Py.int 4300 (Py.lit "1" ++ [0]) = None
  /\ Py.int 4300 (Py.lit "+-5") = None.
Proof. vm_compute. repeat split. Qed.

Example int_digit_limit :
  Py.int 4300 (repeat 49 4300) <> None
  /\ Py.int 4300 (repeat 49 4301) = None
  /\ Py.int 0 (repeat 49 4301) <> None.
Proof. vm_compute. repeat split; discriminate. Qed.

Example replace_examples :
  Py.replace [] (Py.lit "-") (Py.lit "abc") = Py.lit "-a-b-c-"
  /\ Py.replace [] (Py.lit "-") [] = Py.lit "-"
  /\ Py.replace (Py.lit "aa") (Py.lit "b") (Py.lit "aaa") = Py.lit "ba"
  /\ Py.replace rub [] (Py.lit "10 " ++ rub) = Py.lit "10 ".
Proof. vm_compute. repeat split. Qed.

Example utf8_examples :
  Utf8.decode [xd1; x80; xd1; x83; xd0; xb1; x2e]%byte = Some rub
  /\ Utf8.decode [xff]%byte = None
  /\ Utf8.decode [xc0; x80]%byte = None
  /\ Utf8.decode [xed; xa0; x80]%byte = None
  /\ Utf8.decode [xf0; x9f; x98; x80]%byte = Some [128512]
  /\ Utf8.decode [xe2; x82]%byte = None
  /\ Utf8.decode [] = Some [].
Proof. vm_compute. repeat split. Qed.

Lemma eqb_eq (a b : str) : Py.eqb a b = true <-> a = b.
Proof.
  revert b; induction a as [|x a IH]; intros [|y b]; simpl;
    try (split; (discriminate || reflexivity)).
  rewrite andb_true_iff, N.eqb_eq, IH. split.
  - intros [-> ->]; reflexivity.
  - intros H; injection H; auto.
Qed.

Lemma startswith_app (p s r : str) :
  Py.startswith p s = true -> Py.startswith p (s ++ r) = true.
Proof.
  revert s; induction p as [|a p IH]; intros [|b s]; simpl; auto;
    try discriminate.
  rewrite !andb_true_iff; intros [H1 H2]; auto.
Qed.

Lemma startswith_long (p s r : str) :
  (List.length p <= List.length s)%nat ->
  Py.startswith p (s ++ r) = Py.startswith p s.
Proof.
  revert s; induction p as [|a p IH]; intros [|b s]; simpl; auto.
  - lia.
  - intros H. rewrite IH by lia. reflexivity.
Qed.

Lemma startswith_length (p s : str) :
  Py.startswith p s = true -> (List.length p <= List.length s)%nat.
Proof.
  revert s; induction p as [|a p IH]; intros [|b s]; simpl;
    try discriminate; try lia.
  rewrite andb_true_iff; intros [_ H]; apply IH in H; lia.
Qed.

Ltac short_prefix x :=
  destruct x as [|?a [|?b [|?c [|? ?]]]]; unfold rub;
  cbn [Py.startswith app List.length] in *; try congruence; try lia.

Ltac eqb_cases :=
  repeat match goal with
         | |- context [N.eqb ?a ?b] =>
             destruct (N.eqb_spec a b); subst; cbn [andb];
             try reflexivity; try congruence; try lia
         end.

Lemma no_straddle_rub (b : str) : no_straddle (rub ++ b).
Proof.
  intros x Hx Hlen. short_prefix x; eqb_cases.
Qed.

Lemma no_straddle_nil : no_straddle [].
Proof.
  intros x Hx Hlen. short_prefix x; eqb_cases.
Qed.

Lemma no_straddle_other (c : codepoint) (b : str) :
  c <> 1091 -> c <> 1073 -> c <> 46 -> no_straddle (c :: b).
Proof.
  intros H1 H2 H3 x Hx Hlen. short_prefix x; eqb_cases.
Qed.

Lemma replace_scan_app (rest : str) :
  no_straddle rest ->
  forall (a : str) (k : nat),
    (k <= List.length a)%nat ->
    Py.replace_scan rub [] k (a ++ rest)
    = Py.replace_scan rub [] k a ++ Py.replace_scan rub [] 0 rest.
Proof.
  intros Hrest a; induction a as [|c a IH]; intros k Hk.
  - simpl in Hk. assert (k = 0%nat) by lia. subst. reflexivity.
  - destruct k as [|k].
    + change ((c :: a) ++ rest) with (c :: (a ++ rest)).
      cbn [Py.replace_scan].
      change (c :: (a ++ rest)) with ((c :: a) ++ rest).
      destruct (Py.startswith rub (c :: a)) eqn:E.
      * rewrite (startswith_app _ _ rest E).
        apply startswith_length in E. simpl in E.
        simpl. apply IH. simpl. lia.
      * assert (E' : Py.startswith rub ((c :: a) ++ rest) = false).
        { destruct (Nat.le_gt_cases 4 (List.length (c :: a))) as [L|L].
          - rewrite startswith_long; auto.
          - apply Hrest; [discriminate | exact L]. }
        rewrite E'. simpl. f_equal. apply IH. lia.
    + simpl. apply IH. simpl in Hk. lia.
Qed.

Lemma startswith_rub_inv (s : str) :
  Py.startswith rub s = true -> exists s', s = rub ++ s'.
Proof.
  unfold rub. destruct s as [|a [|b [|c [|d s']]]];
    cbn [Py.startswith]; try discriminate;
    rewrite ?andb_true_iff, ?andb_false_r; try (intuition discriminate).
  rewrite !N.eqb_eq. intros (<- & <- & <- & <- & _). now exists s'.
Qed.

Lemma replace_rub_here (s : str) :
  Py.replace rub [] (rub ++ s) = Py.replace rub [] s.
Proof. reflexivity. Qed.

Lemma replace_rub_next (c : codepoint) (s : str) :
  Py.startswith rub (c :: s) = false ->
  Py.replace rub [] (c :: s) = c :: Py.replace rub [] s.
Proof.
  intros H. unfold Py.replace, rub in *. cbn [Py.replace_scan].
  rewrite H. reflexivity.
Qed.

(** Induction along the scan of [replace]: at every position either the
    currency token starts, or one character is copied. *)
Lemma rub_scan_ind (P : str -> Prop) :
  P [] ->
  (forall s, P s -> P (rub ++ s)) ->
  (forall c s, Py.startswith rub (c :: s) = false -> P s -> P (c :: s)) ->
  forall s, P s.
Proof.
  intros Hnil Hrub Hnext s.
  assert (H : forall (n : nat) (s : str), (List.length s <= n)%nat -> P s).
  { induction n as [|n IH]; intros [|c t] Hlen; try exact Hnil.
    - simpl in Hlen. lia.
    - destruct (Py.startswith rub (c :: t)) eqn:E.
      + destruct (startswith_rub_inv _ E) as [s' Es]. rewrite Es.
        apply Hrub, IH. rewrite Es in Hlen. unfold rub in Hlen.
        simpl in Hlen. lia.
      + apply Hnext; [exact E|]. apply IH. simpl in Hlen. lia. }
  apply (H (List.length s)). apply Nat.le_refl.
Qed.

Lemma replace_space_filter (s : str) :
  Py.replace space [] s = filter (fun c => negb (c =? 32)) s.
Proof.
  unfold Py.replace, space.
  induction s as [|c s IH]; [reflexivity|].
  cbn [Py.replace_scan Py.startswith filter List.length pred app].
  rewrite andb_true_r, (N.eqb_sym 32 c).
  destruct (c =? 32); cbn [negb]; rewrite IH; reflexivity.
Qed.

Lemma replace_rub_app (a b : str) :
  Py.replace rub [] (a ++ rub ++ b)
  = Py.replace rub [] a ++ Py.replace rub [] b.
Proof.
  unfold Py.replace at 1 2. unfold rub at 1 3.
  change [1088; 1091; 1073; 46] with rub.
  rewrite (replace_scan_app _ (no_straddle_rub b)) by apply Nat.le_0_l.
  reflexivity.
Qed.

Lemma replace_rub_space (a b : str) :
  Py.replace rub [] (a ++ space ++ b)
  = Py.replace rub [] a ++ space ++ Py.replace rub [] b.
Proof.
  unfold Py.replace at 1 2. unfold rub at 1 3.
  change [1088; 1091; 1073; 46] with rub.
  unfold space. cbn [app].
  rewrite (replace_scan_app (32 :: b)).
  - reflexivity.
  - apply no_straddle_other; discriminate.
  - apply Nat.le_0_l.
Qed.

Lemma replace_rub_absent (s : str) :
  ~ In 1088 s -> Py.replace rub [] s = s.
Proof.
  induction s as [|c s IH]; intros H; [reflexivity|].
  rewrite replace_rub_next.
  - rewrite IH; [reflexivity|]. intros Hin; apply H; now right.
  - destruct (Py.startswith rub (c :: s)) eqn:E; [|reflexivity].
    exfalso. apply startswith_rub_inv in E as [s' E].
    injection E as -> _. apply H. now left.
Qed.

Lemma replace_rub_In (c : codepoint) (s : str) :
  In c (Py.replace rub [] s) -> In c s.
Proof.
  induction s as [|s IH|d s E IH] using rub_scan_ind.
  - auto.
  - rewrite replace_rub_here. intros H. apply in_or_app. right. auto.
  - rewrite (replace_rub_next _ _ E). simpl. intuition.
Qed.

Lemma replace_rub_kept (s : str) :
  filter (fun c => negb (cleaned_away c)) (Py.replace rub [] s)
  = filter (fun c => negb (cleaned_away c)) s.
Proof.
  induction s as [|s IH|d s E IH] using rub_scan_ind.
  - reflexivity.
  - rewrite replace_rub_here, IH, filter_app. reflexivity.
  - rewrite (replace_rub_next _ _ E). cbn [filter]. rewrite IH. reflexivity.
Qed.

(** ** [int] *)

Lemma decimal_in_spec (zeros : list codepoint) (c d : N) :
  Py.decimal_in zeros c = Some d ->
  exists z, In z zeros /\ z <= c /\ c <= z + 9 /\ d = c - z.
Proof.
  induction zeros as [|z zeros IH]; simpl; [discriminate|].
  destruct ((z <=? c) && (c <=? z + 9)) eqn:E.
  - intros [= <-]. apply andb_true_iff in E as [E1 E2].
    apply N.leb_le in E1, E2. exists z. auto.
  - intros H. destruct (IH H) as (z' & Hin & Hz). exists z'. auto.
Qed.

Lemma decimal_zeros_ascii (z : codepoint) :
  In z Py.decimal_zeros -> z = 48 \/ 127 <= z.
Proof.
  assert (H : forallb (fun z => (z =? 48) || (127 <=? z)) Py.decimal_zeros
              = true) by (vm_compute; reflexivity).
  rewrite forallb_forall in H. intros Hin. specialize (H z Hin).
  apply orb_true_iff in H as [H|H]; [left; now apply N.eqb_eq|].
  right; now apply N.leb_le.
Qed.

Lemma decimal_zeros_not_space (z k : N) :
  In z Py.decimal_zeros -> k <= 9 -> Py.isspace (z + k) = false.
Proof.
  assert (H : forallb
                (fun z => forallb (fun k => negb (Py.isspace (z + k)))
                                  [0; 1; 2; 3; 4; 5; 6; 7; 8; 9])
                Py.decimal_zeros = true) by (vm_compute; reflexivity).
  rewrite forallb_forall in H. intros Hin Hk. specialize (H z Hin).
  rewrite forallb_forall in H. apply negb_true_iff, H.
  assert (Hk' : k = 0 \/ k = 1 \/ k = 2 \/ k = 3 \/ k = 4 \/ k = 5
                \/ k = 6 \/ k = 7 \/ k = 8 \/ k = 9) by lia.
  simpl. intuition.
Qed.

Lemma to_decimal_le (c d : N) : Py.to_decimal c = Some d -> d <= 9.
Proof.
  intros H. apply decimal_in_spec in H as (z & _ & H1 & H2 & ->). lia.
Qed.

Lemma to_decimal_ascii (c d : N) :
  Py.to_decimal c = Some d -> c < 127 -> c = 48 + d.
Proof.
  intros H Hc. apply decimal_in_spec in H as (z & Hin & H1 & H2 & ->).
  apply decimal_zeros_ascii in Hin as [->|Hz]; lia.
Qed.

Lemma to_decimal_not_space (c d : N) :
  Py.to_decimal c = Some d -> Py.isspace c = false.
Proof.
  intros H. apply decimal_in_spec in H as (z & Hin & H1 & H2 & ->).
  replace c with (z + (c - z)) by lia.
  apply decimal_zeros_not_space; [exact Hin | lia].
Qed.

Lemma isdigit_to_decimal (c : N) :
  Py.c_isdigit c = true -> Py.to_decimal c = Some (c - 48).
Proof.
  unfold Py.c_isdigit, Py.to_decimal, Py.decimal_zeros. intros H.
  cbn [Py.decimal_in]. change (48 + 9) with 57. rewrite H. reflexivity.
Qed.

Lemma isdigit_decimal_digit (c : N) :
  Py.c_isdigit c = true -> decimal_digit c = true.
Proof.
  intros H. unfold decimal_digit. now rewrite (isdigit_to_decimal _ H).
Qed.

Lemma ascii_of_decimal_isdigit (c : N) :
  decimal_digit c = true -> Py.c_isdigit (ascii_of_decimal c) = true.
Proof.
  unfold decimal_digit, ascii_of_decimal, Py.c_isdigit.
  destruct (Py.to_decimal c) as [d|] eqn:E; [|discriminate]. intros _.
  apply to_decimal_le in E.
  apply andb_true_iff; split; apply N.leb_le; lia.
Qed.

Lemma transform_decimal (c : N) (s : str) :
  decimal_digit c = true ->
  Py.transform_decimal_and_space (c :: s)
  = ascii_of_decimal c :: Py.transform_decimal_and_space s.
Proof.
  unfold decimal_digit, ascii_of_decimal. cbn [Py.transform_decimal_and_space].
  destruct (Py.to_decimal c) as [d|] eqn:E; [|discriminate]. intros _.
  destruct (N.ltb_spec c 127) as [L|L].
  - rewrite (to_decimal_ascii _ _ E L) at 1. reflexivity.
  - now rewrite (to_decimal_not_space _ _ E).
Qed.

Lemma transform_decimals (ds rest : str) :
  forallb decimal_digit ds = true ->
  Py.transform_decimal_and_space (ds ++ rest)
  = map ascii_of_decimal ds ++ Py.transform_decimal_and_space rest.
Proof.
  induction ds as [|c ds IH]; [reflexivity|].
  cbn [forallb]. rewrite andb_true_iff. intros [Hc Hds].
  change ((c :: ds) ++ rest) with (c :: (ds ++ rest)).
  rewrite (transform_decimal _ _ Hc), (IH Hds). reflexivity.
Qed.

Lemma isdigit_not_underscore (c : N) :
  Py.c_isdigit c = true -> (c =? 95) = false.
Proof.
  unfold Py.c_isdigit. rewrite andb_true_iff, !N.leb_le. intros [H1 H2].
  apply N.eqb_neq. lia.
Qed.

Lemma isdigit_not_space (c : N) :
  Py.c_isdigit c = true -> Py.c_isspace c = false.
Proof.
  unfold Py.c_isdigit, Py.c_isspace.
  rewrite andb_true_iff, !N.leb_le. intros [H1 H2].
  apply orb_false_iff; split.
  - apply andb_false_iff. right. apply N.leb_gt. lia.
  - apply N.eqb_neq. lia.
Qed.

Lemma last_cons_default (ds : str) :
  forall c prev : codepoint, last (c :: ds) prev = last ds c.
Proof.
  induction ds as [|c' ds IH]; intros c prev; [reflexivity|].
  change (last (c :: c' :: ds) prev) with (last (c' :: ds) prev).
  now rewrite !IH.
Qed.

(** The digit scan runs through a string of digits. *)
Lemma scan_digits_run (ds : str) :
  forallb Py.c_isdigit ds = true ->
  forall (prev : codepoint) (n : N) (v : Z) (rest : str),
    Py.scan_digits prev n v (ds ++ rest)
    = Py.scan_digits (last ds prev) (n + N.of_nat (List.length ds))
        (fold_left (fun v c => (10 * v + Z.of_N (c - 48))%Z) ds v) rest.
Proof.
  induction ds as [|c ds IH]; intros Hds prev n v rest.
  - simpl. now rewrite N.add_0_r.
  - cbn [forallb] in Hds. apply andb_true_iff in Hds as [Hc Hds].
    change ((c :: ds) ++ rest) with (c :: (ds ++ rest)).
    cbn [Py.scan_digits]. rewrite (isdigit_not_underscore _ Hc), Hc.
    rewrite (IH Hds). cbn [fold_left].
    f_equal.
    + symmetry. apply last_cons_default.
    + rewrite <- N.add_assoc. f_equal.
      change (List.length (c :: ds)) with (S (List.length ds)). lia.
Qed.

Lemma last_isdigit (ds : str) (prev : codepoint) :
  ds <> [] -> forallb Py.c_isdigit ds = true ->
  Py.c_isdigit (last ds prev) = true.
Proof.
  induction ds as [|c ds IH]; [congruence|]. intros _ H.
  cbn [forallb] in H. apply andb_true_iff in H as [Hc Hds].
  destruct ds as [|c' ds]; [exact Hc|].
  change (last (c :: c' :: ds) prev) with (last (c' :: ds) prev).
  apply IH; [discriminate | exact Hds].
Qed.

Lemma scan_digits_stop (rest : str) (prev : codepoint) (n : N) (v : Z) :
  scan_stops rest = true -> (prev =? 95) = false ->
  Py.scan_digits prev n v rest = Some (n, v, rest).
Proof.
  destruct rest as [|c rest]; cbn [scan_stops Py.scan_digits]; intros H Hp.
  - now rewrite Hp.
  - apply andb_true_iff in H as [H1 H2]. apply negb_true_iff in H1, H2.
    now rewrite H1, H2, Hp.
Qed.

Lemma skip_spaces_digit (c : codepoint) (s : str) :
  Py.c_isdigit c = true -> Py.skip_spaces (c :: s) = c :: s.
Proof.
  intros H. cbn [Py.skip_spaces]. now rewrite (isdigit_not_space _ H).
Qed.

Lemma read_sign_digit (c : codepoint) (s : str) :
  Py.c_isdigit c = true -> Py.read_sign (c :: s) = (1%Z, c :: s).
Proof.
  unfold Py.c_isdigit, Py.read_sign.
  rewrite andb_true_iff, !N.leb_le. intros [H1 H2].
  destruct (N.eqb_spec c 43); [lia|]. destruct (N.eqb_spec c 45); [lia|].
  reflexivity.
Qed.

(** [PyLong_FromString] on digits followed by something that stops the
    scan. *)
Lemma long_from_string_run (limit : N) (ds rest : str) :
  ds <> [] -> forallb Py.c_isdigit ds = true -> scan_stops rest = true ->
  Py.long_from_string limit (ds ++ rest)
  = if Py.too_many_digits limit (N.of_nat (List.length ds)) then None
    else match Py.skip_spaces rest with
         | [] => Some (ascii_value ds)
         | _ :: _ => None
         end.
Proof.
  intros Hne Hds Hrest.
  assert (Hlast := last_isdigit ds 0 Hne Hds).
  destruct ds as [|c ds]; [congruence|].
  assert (Hc : Py.c_isdigit c = true).
  { cbn [forallb] in Hds. now apply andb_true_iff in Hds as [Hc _]. }
  unfold Py.long_from_string.
  change ((c :: ds) ++ rest) with (c :: (ds ++ rest)).
  rewrite (skip_spaces_digit _ _ Hc), (read_sign_digit _ _ Hc).
  cbn [Py.leading_underscore]. rewrite (isdigit_not_underscore _ Hc).
  change (c :: (ds ++ rest)) with ((c :: ds) ++ rest).
  rewrite (scan_digits_run _ Hds).
  rewrite scan_digits_stop;
    [| exact Hrest | now apply isdigit_not_underscore].
  rewrite N.add_0_l.
  destruct (Py.too_many_digits limit (N.of_nat (List.length (c :: ds))));
    [reflexivity|].
  destruct (N.eqb_spec (N.of_nat (List.length (c :: ds))) 0) as [E|E];
    [simpl in E; lia|].
  unfold ascii_value.
  destruct (Py.skip_spaces rest); [|reflexivity].
  f_equal. apply Z.mul_1_l.
Qed.

Lemma ascii_value_of_decimals (ds : str) :
  forallb decimal_digit ds = true ->
  ascii_value (map ascii_of_decimal ds) = decimal_value ds.
Proof.
  unfold ascii_value, decimal_value. generalize 0%Z.
  induction ds as [|c ds IH]; intros v H; [reflexivity|].
  cbn [forallb] in H. apply andb_true_iff in H as [Hc Hds].
  cbn [map fold_left]. rewrite (IH _ Hds). f_equal.
  unfold decimal_digit in Hc. unfold ascii_of_decimal.
  destruct (Py.to_decimal c) as [d|]; [|discriminate].
  f_equal. f_equal. lia.
Qed.

Lemma forallb_map_isdigit (ds : str) :
  forallb decimal_digit ds = true ->
  forallb Py.c_isdigit (map ascii_of_decimal ds) = true.
Proof.
  induction ds as [|c ds IH]; [reflexivity|]. cbn [forallb map].
  rewrite !andb_true_iff. intros [Hc Hds]. split; auto.
  now apply ascii_of_decimal_isdigit.
Qed.

(** [int] on a non-empty string of decimal digits within the limit. *)
Lemma int_decimal_digits (limit : N) (ds : str) :
  ds <> [] -> forallb decimal_digit ds = true ->
  Py.too_many_digits limit (N.of_nat (List.length ds)) = false ->
  Py.int limit ds = Some (decimal_value ds).
Proof.
  intros Hne Hds Hlim. unfold Py.int.
  rewrite <- (app_nil_r ds) at 1. rewrite (transform_decimals _ _ Hds).
  cbn [Py.transform_decimal_and_space].
  rewrite long_from_string_run.
  - rewrite length_map, Hlim. cbn [Py.skip_spaces].
    now rewrite ascii_value_of_decimals.
  - destruct ds; [congruence | discriminate].
  - now apply forallb_map_isdigit.
  - reflexivity.
Qed.

(** What [int] makes of a character between two groups of digits that is
    neither a digit nor an underscore: something that stops the scan and
    is not followed by white space only. *)
Lemma separator_image (w : codepoint) (b : str) :
  b <> [] -> forallb decimal_digit b = true ->
  w <> 95 -> decimal_digit w = false ->
  exists rest,
    Py.transform_decimal_and_space (w :: b) = rest
    /\ scan_stops rest = true /\ Py.skip_spaces rest <> [].
Proof.
  intros Hne Hb Hw Hd.
  assert (HB : exists d B, map ascii_of_decimal b = d :: B
                           /\ Py.c_isdigit d = true).
  { destruct b as [|c b]; [congruence|]. cbn [forallb] in Hb.
    apply andb_true_iff in Hb as [Hc _].
    exists (ascii_of_decimal c), (map ascii_of_decimal b). split; auto.
    now apply ascii_of_decimal_isdigit. }
  destruct HB as (d & B & EB & Hdig).
  assert (Htail : Py.transform_decimal_and_space b = d :: B).
  { rewrite <- (app_nil_r b), (transform_decimals _ _ Hb), EB.
    apply app_nil_r. }
  assert (Hstop : forall x, x <> 95 -> Py.c_isdigit x = false ->
                            scan_stops (x :: d :: B) = true
                            /\ Py.skip_spaces (x :: d :: B) <> []).
  { intros x Hx Hxd. split.
    - cbn [scan_stops]. rewrite Hxd. apply N.eqb_neq in Hx. now rewrite Hx.
    - cbn [Py.skip_spaces]. rewrite (isdigit_not_space _ Hdig).
      destruct (Py.c_isspace x); discriminate. }
  cbn [Py.transform_decimal_and_space]. rewrite Htail.
  destruct (N.ltb_spec w 127) as [L|L].
  - eexists; split; [reflexivity|]. apply Hstop; [exact Hw|].
    destruct (Py.c_isdigit w) eqn:E; [|reflexivity].
    apply isdigit_decimal_digit in E. congruence.
  - destruct (Py.isspace w).
    + eexists; split; [reflexivity|]. apply Hstop; [lia | reflexivity].
    + unfold decimal_digit in Hd. destruct (Py.to_decimal w); [discriminate|].
      eexists; split; [reflexivity|]. split; [reflexivity | discriminate].
Qed.

(** [int] refuses two groups of digits with anything between them but a
    digit or an underscore. *)
Lemma int_separated (limit : N) (a b : str) (w : codepoint) :
  a <> [] -> b <> [] ->
  forallb decimal_digit a = true -> forallb decimal_digit b = true ->
  w <> 95 -> decimal_digit w = false ->
  Py.int limit (a ++ w :: b) = None.
Proof.
  intros Ha Hb Hda Hdb Hw Hd. unfold Py.int.
  rewrite (transform_decimals _ _ Hda).
  destruct (separator_image w b Hb Hdb Hw Hd) as (rest & -> & Hstop & Hsk).
  rewrite long_from_string_run.
  - destruct (Py.too_many_digits _ _); [reflexivity|].
    destruct (Py.skip_spaces rest); [congruence | reflexivity].
  - destruct a; [congruence | discriminate].
  - now apply forallb_map_isdigit.
  - exact Hstop.
Qed.

Lemma scan_digits_nonneg (s : str) :
  forall (prev : codepoint) (n n' : N) (v v' : Z) (rest : str),
    (0 <= v)%Z -> Py.scan_digits prev n v s = Some (n', v', rest) ->
    (0 <= v')%Z.
Proof.
  induction s as [|c s IH]; intros prev n n' v v' rest Hv;
    cbn [Py.scan_digits].
  - destruct (prev =? 95); [discriminate|]. intros [= _ <- _]. exact Hv.
  - destruct (c =? 95).
    + destruct (prev =? 95); [discriminate|]. now apply IH.
    + destruct (Py.c_isdigit c).
      * apply IH. lia.
      * destruct (prev =? 95); [discriminate|]. intros [= _ <- _]. exact Hv.
Qed.

Lemma skip_spaces_In (c : codepoint) (s : str) :
  In c (Py.skip_spaces s) -> In c s.
Proof.
  induction s as [|d s IH]; cbn [Py.skip_spaces]; [auto|].
  destruct (Py.c_isspace d); [|auto]. intros H. right. auto.
Qed.

(** A negative result of [PyLong_FromString] comes from a minus sign. *)
Lemma long_from_string_negative (limit : N) (s : str) (v : Z) :
  Py.long_from_string limit s = Some v -> (v < 0)%Z -> In 45 s.
Proof.
  unfold Py.long_from_string. intros H Hv. apply skip_spaces_In.
  destruct (Py.skip_spaces s) as [|c r]; cbn [Py.read_sign] in H.
  - discriminate.
  - destruct (N.eqb_spec c 45) as [->|Hc]; [now left|]. exfalso.
    assert (Hpos : forall s2, (if Py.leading_underscore s2 then None
              else match Py.scan_digits 0 0 0%Z s2 with
                   | None => None
                   | Some (digits, value, rest) =>
                       if Py.too_many_digits limit digits then None
                       else if digits =? 0 then None
                       else match Py.skip_spaces rest with
                            | [] => Some (1 * value)%Z
                            | _ :: _ => None
                            end
                   end) = Some v -> False).
    { intros s2. destruct (Py.leading_underscore s2); [discriminate|].
      destruct (Py.scan_digits 0 0 0%Z s2) as [[[n' v'] rest]|] eqn:E;
        [|discriminate].
      apply scan_digits_nonneg in E; [|lia].
      destruct (Py.too_many_digits limit n'); [discriminate|].
      destruct (n' =? 0); [discriminate|].
      destruct (Py.skip_spaces rest); [|discriminate].
      intros [= Hx]. destruct v'; lia. }
    destruct (c =? 43); eapply Hpos; exact H.
Qed.

Lemma transform_In_minus (s : str) :
  In 45 (Py.transform_decimal_and_space s) -> In 45 s.
Proof.
  induction s as [|c s IH]; cbn [Py.transform_decimal_and_space]; [auto|].
  destruct (c <? 127).
  - cbn [In]. intuition.
  - destruct (Py.isspace c).
    + cbn [In]. intros [H|H]; [discriminate | auto].
    + destruct (Py.to_decimal c) as [d|].
      * cbn [In]. intros [H|H]; [lia | auto].
      * cbn [In]. intros [H|[]]. discriminate.
Qed.

Lemma int_negative (limit : N) (s : str) (v : Z) :
  Py.int limit s = Some v -> (v < 0)%Z -> In 45 s.
Proof.
  unfold Py.int. intros H Hv. apply transform_In_minus.
  exact (long_from_string_negative _ _ _ H Hv).
Qed.

(** ** The salary clean-up *)

Section Salary.

Context {env : Environment}.

Lemma salary_text_filter (t : str) :
  salary_text t = filter (fun c => negb (c =? 32)) (Py.replace rub [] t).
Proof. apply replace_space_filter. Qed.

Lemma salary_text_rub (a b : str) :
  salary_text (a ++ rub ++ b) = salary_text a ++ salary_text b.
Proof.
  rewrite !salary_text_filter, replace_rub_app. apply filter_app.
Qed.

Lemma salary_text_space (a b : str) :
  salary_text (a ++ space ++ b) = salary_text a ++ salary_text b.
Proof.
  rewrite !salary_text_filter, replace_rub_space, !filter_app. reflexivity.
Qed.

Lemma salary_text_In (c : codepoint) (t : str) :
  In c (salary_text t) -> In c t.
Proof.
  rewrite salary_text_filter, filter_In. intros [H _].
  now apply replace_rub_In.
Qed.

Lemma salary_text_kept (t : str) :
  filter (fun c => negb (cleaned_away c)) (salary_text t)
  = filter (fun c => negb (cleaned_away c)) t.
Proof.
  rewrite salary_text_filter, <- (replace_rub_kept t).
  generalize (Py.replace rub [] t). intros s.
  induction s as [|c s IH]; [reflexivity|]. cbn [filter].
  destruct (N.eqb_spec c 32) as [->|Hc]; cbn [negb].
  - exact IH.
  - cbn [filter]. now rewrite IH.
Qed.

(** The clean-up leaves a text alone that has neither the first letter of
    the currency token nor a space. *)
Lemma salary_text_clean (t : str) :
  ~ In 1088 t -> ~ In 32 t -> salary_text t = t.
Proof.
  intros H1 H2. rewrite salary_text_filter, (replace_rub_absent _ H1).
  induction t as [|c t IH]; [reflexivity|]. cbn [filter].
  destruct (N.eqb_spec c 32) as [->|Hc]; cbn [negb].
  - exfalso. apply H2. now left.
  - f_equal. apply IH; intros H; [apply H1 | apply H2]; now right.
Qed.

Lemma parse_salary_int (t : str) :
  parse_salary t = Py.int int_max_str_digits (salary_text t).
Proof. unfold parse_salary. now destruct (Py.int _ _). Qed.

Lemma decimal_digit_In (c : codepoint) (ds : str) :
  forallb decimal_digit ds = true -> decimal_digit c = false -> ~ In c ds.
Proof.
  rewrite forallb_forall. intros H Hc Hin. apply H in Hin. congruence.
Qed.

End Salary.

(** ** The loops of the handlers *)

Section Loops.

Context {env : Environment}.

Lemma texts_of_map (selector : str) (x : Bs4.PageElement) :
  texts_of selector x = map Bs4.text (Bs4.select selector x).
Proof. unfold texts_of. now destruct (Bs4.select selector x). Qed.

(** One turn of the vacancy loop normalizes the block and, when there is
    a record, inserts it and appends it to the list. *)
Lemma vacancy_step_normalize (db : Database) (l : list Vacancy.t)
      (block : Bs4.PageElement) :
  vacancy_step (db, l) block
  = match normalize_vacancy block with
    | Some vac => (fst (add_vacancy vac db), l ++ [snd (add_vacancy vac db)])
    | None => (db, l)
    end.
Proof.
  unfold vacancy_step, normalize_vacancy. rewrite texts_of_map.
  destruct (text_of_one (Py.lit ".vacancy-serp-item__title") block)
    as [[|c title]|];
    destruct (text_of_one (Py.lit ".vacancy-serp-item__snippet") block)
    as [[|d description]|]; reflexivity.
Qed.

Lemma applicant_step_normalize (db : Database) (l : list Applicant.t)
      (block : Bs4.PageElement) :
  applicant_step (db, l) block
  = match normalize_applicant block with
    | Some appl =>
        (fst (add_applicant appl db), l ++ [snd (add_applicant appl db)])
    | None => (db, l)
    end.
Proof.
  unfold applicant_step, normalize_applicant. rewrite texts_of_map.
  destruct (text_of_one (Py.lit ".resume-search-item__fullname") block)
    as [[|c name]|]; reflexivity.
Qed.

Lemma insert_vacancies_nil (db : Database) : insert_vacancies db [] = db.
Proof.
  destruct db. unfold insert_vacancies. cbn.
  now rewrite app_nil_r, Z.add_0_r.
Qed.

Lemma insert_applicants_nil (db : Database) : insert_applicants db [] = db.
Proof.
  destruct db. unfold insert_applicants. cbn.
  now rewrite app_nil_r, Z.add_0_r.
Qed.

Lemma insert_vacancies_cons (db : Database) (vac : Vacancy.t)
      (records : list Vacancy.t) :
  insert_vacancies (fst (add_vacancy vac db)) records
  = insert_vacancies db (vac :: records).
Proof.
  unfold insert_vacancies, add_vacancy. cbn [fst vacancies vacancies_id_seq
    applicants applicants_id_seq with_ids List.length].
  rewrite <- app_assoc. cbn [app]. f_equal. lia.
Qed.

Lemma insert_applicants_cons (db : Database) (appl : Applicant.t)
      (records : list Applicant.t) :
  insert_applicants (fst (add_applicant appl db)) records
  = insert_applicants db (appl :: records).
Proof.
  unfold insert_applicants, add_applicant. cbn [fst vacancies
    vacancies_id_seq applicants applicants_id_seq applicants_with_ids
    List.length].
  rewrite <- app_assoc. cbn [app]. f_equal. lia.
Qed.

(** The vacancy loop inserts the records of the blocks that normalize, in
    the order of the blocks, and returns them with their identities. *)
Lemma vacancy_loop (blocks : list Bs4.PageElement) :
  forall (db : Database) (l : list Vacancy.t),
    fold_left vacancy_step blocks (db, l)
    = (insert_vacancies db (map_filter normalize_vacancy blocks),
       l ++ with_ids (vacancies_id_seq db)
                     (map_filter normalize_vacancy blocks)).
Proof.
  induction blocks as [|block blocks IH]; intros db l.
  - cbn. now rewrite insert_vacancies_nil, app_nil_r.
  - cbn [fold_left map_filter]. rewrite vacancy_step_normalize.
    destruct (normalize_vacancy block) as [vac|].
    + rewrite IH, insert_vacancies_cons, <- app_assoc. reflexivity.
    + apply IH.
Qed.

Lemma applicant_loop (blocks : list Bs4.PageElement) :
  forall (db : Database) (l : list Applicant.t),
    fold_left applicant_step blocks (db, l)
    = (insert_applicants db (map_filter normalize_applicant blocks),
       l ++ applicants_with_ids (applicants_id_seq db)
                                (map_filter normalize_applicant blocks)).
Proof.
  induction blocks as [|block blocks IH]; intros db l.
  - cbn. now rewrite insert_applicants_nil, app_nil_r.
  - cbn [fold_left map_filter]. rewrite applicant_step_normalize.
    destruct (normalize_applicant block) as [appl|].
    + rewrite IH, insert_applicants_cons, <- app_assoc. reflexivity.
    + apply IH.
Qed.

End Loops.

(** ** The handlers *)






Section HandlerFacts.

Context {env : Environment}.

Lemma normalize_vacancy_no_id (block : Bs4.PageElement) (r : Vacancy.t) :
  normalize_vacancy block = Some r -> forget_id r = r.
Proof.
  unfold normalize_vacancy.
  destruct (text_of_one (Py.lit ".vacancy-serp-item__title") block)
    as [[|c title]|]; try discriminate.
  destruct (text_of_one (Py.lit ".vacancy-serp-item__snippet") block)
    as [[|d description]|]; try discriminate.
  intros H. injection H as <-. reflexivity.
Qed.




(** A run of the vacancy handler on an upstream answer with status 200
    whose body decodes. *)
Lemma get_vacancies_ok (query : str) (w : World) (text : str) :
  status_code (vacancy_search query) = 200%Z ->
  detect_and_decode (content (vacancy_search query)) = Ok text ->
  get_vacancies query w
  = (mkWorld (insert_vacancies
                (database w)
                (map_filter normalize_vacancy (vacancy_blocks text)))
             (Some text),
     Ok (with_ids (vacancies_id_seq (database w))
                  (map_filter normalize_vacancy (vacancy_blocks text)))).
Proof.
  unfold get_vacancies, vacancy_search. intros Hs Hd.
  rewrite Hs, Hd. cbn [Z.eqb Pos.eqb negb].
  fold (vacancy_blocks text). now rewrite vacancy_loop.
Qed.

Lemma get_applicants_ok (query : str) (w : World) (text : str) :
  status_code (resume_search query) = 200%Z ->
  detect_and_decode (content (resume_search query)) = Ok text ->
  get_applicants query w
  = (mkWorld (insert_applicants
                (database w)
                (map_filter normalize_applicant (applicant_blocks text)))
             (page_content_html w),
     Ok (applicants_with_ids
           (applicants_id_seq (database w))
           (map_filter normalize_applicant (applicant_blocks text)))).
Proof.
  unfold get_applicants, resume_search. intros Hs Hd.
  rewrite Hs, Hd. cbn [Z.eqb Pos.eqb negb].
  fold (applicant_blocks text). now rewrite applicant_loop.
Qed.

Lemma get_vacancies_failed (query : str) (w : World) :
  status_code (vacancy_search query) <> 200%Z ->
  get_vacancies query w
  = (w, Raise (HTTPException (status_code (vacancy_search query))
                             fetch_error)).
Proof.
  unfold get_vacancies, vacancy_search. intros Hs.
  apply Z.eqb_neq in Hs. now rewrite Hs.
Qed.

Lemma get_applicants_failed (query : str) (w : World) :
  status_code (resume_search query) <> 200%Z ->
  get_applicants query w
  = (w, Raise (HTTPException (status_code (resume_search query))
                             fetch_error)).
Proof.
  unfold get_applicants, resume_search. intros Hs.
  apply Z.eqb_neq in Hs. now rewrite Hs.
Qed.

End HandlerFacts.

(** ** Upstream failure *)



(** ** The output of the pipeline *)



(** ** Blocks without a required field *)



(** ** Skills *)

Lemma join_intersperse (sep : str) (tokens : list str) :
  Py.join sep tokens = List.concat (intersperse sep tokens).
Proof.
  induction tokens as [|t [|t' rest] IH]; cbn [Py.join intersperse List.concat].
  - reflexivity.
  - now rewrite app_nil_r.
  - cbn [Py.join intersperse List.concat] in IH. now rewrite IH.
Qed.

Section RecordFacts.

Context {env : Environment}.

Lemma normalize_vacancy_fields (block : Bs4.PageElement) (r : Vacancy.t) :
  normalize_vacancy block = Some r ->
  Vacancy.id r = None
  /\ Vacancy.title r
     = text_of_one (Py.lit ".vacancy-serp-item__title") block
  /\ Vacancy.description r
     = text_of_one (Py.lit ".vacancy-serp-item__snippet") block
  /\ Vacancy.skills r
     = Some (Py.join comma_space
               (map Bs4.text
                    (Bs4.select (Py.lit ".bloko-tag__section_text") block)))
  /\ Vacancy.employment_format r
     = text_of_one (Py.lit ".vacancy-serp-item__meta-info") block
  /\ Vacancy.salary r
     = salary_of (Bs4.select_one (Py.lit ".vacancy-serp-item__sidebar")
                                 block)
  /\ Py.truthy_opt (Vacancy.title r) = true
  /\ Py.truthy_opt (Vacancy.description r) = true.
Proof.
  unfold normalize_vacancy.
  destruct (text_of_one (Py.lit ".vacancy-serp-item__title") block)
    as [[|c title]|]; try discriminate.
  destruct (text_of_one (Py.lit ".vacancy-serp-item__snippet") block)
    as [[|d description]|]; try discriminate.
  intros H. injection H as <-. cbn. repeat split.
Qed.

(** The record that a turn of the loop adds, to the table and to the
    returned list alike, is the normalized block with the next identity. *)
Lemma vacancy_step_added (db : Database) (l : list Vacancy.t)
      (block : Bs4.PageElement) (r : Vacancy.t) :
  In r (vacancies (fst (vacancy_step (db, l) block)))
  \/ In r (snd (vacancy_step (db, l) block)) ->
  In r (vacancies db) \/ In r l
  \/ exists vac, normalize_vacancy block = Some vac /\ forget_id r = vac.
Proof.
  rewrite vacancy_step_normalize.
  destruct (normalize_vacancy block) as [vac|] eqn:E.
  - cbn [fst snd add_vacancy vacancies]. rewrite !in_app_iff. cbn [In].
    intros [[H|[H|[]]]|[H|[H|[]]]]; auto; right; right; exists vac;
      (split; [reflexivity|]); subst r; cbn;
      exact (normalize_vacancy_no_id block vac E).
  - cbn [fst snd]. intuition.
Qed.

End RecordFacts.

(** C7: the skills string of every record that a turn of the vacancy loop
    stores or returns is the texts of the skill tags of the block with
    [", "] between each two of them; the tokens [Python] and [SQL] give
    [Python, SQL]. *)
Theorem skills_joined {env : Environment} (db : Database)
        (l : list Vacancy.t) (block : Bs4.PageElement) (r : Vacancy.t) :
  In r (vacancies (fst (vacancy_step (db, l) block)))
  \/ In r (snd (vacancy_step (db, l) block)) ->
  (In r (vacancies db) \/ In r l
   \/ Vacancy.skills r
      = Some (List.concat
                (intersperse
                   comma_space
                   (map Bs4.text
                        (Bs4.select (Py.lit ".bloko-tag__section_text")
                                    block)))))
  /\ (forall tokens,
         Py.join comma_space tokens
         = List.concat (intersperse comma_space tokens))
  /\ Py.join comma_space [Py.lit "Python"; Py.lit "SQL"]
     = Py.lit "Python, SQL".
Proof.
  intros H. split; [|split].
  - apply vacancy_step_added in H as [H|[H|(vac & E & Hr)]]; auto.
    right; right. apply normalize_vacancy_fields in E.
    destruct E as (_ & _ & _ & Hs & _). rewrite <- Hr in Hs.
    rewrite <- join_intersperse. exact Hs.
  - intros tokens. apply join_intersperse.
  - reflexivity.
Qed.

Lemma skills_joined_witness :
  let env := Sample.serving (Sample.document [Sample.developer]) in
  let db := mkDatabase [] 0 [] 0 in
  let r := Vacancy.make (Some 1%Z) (Some (Py.lit "Developer"))
                        (Some (Py.lit "Write code"))
                        (Some (Py.lit "Python, SQL"))
                        (Some (Py.lit "Remote")) (Some 100000%Z) in
  In r (snd (vacancy_step (db, []) Sample.developer))
  /\ map Bs4.text (Bs4.select (Py.lit ".bloko-tag__section_text")
                              Sample.developer)
     = [Py.lit "Python"; Py.lit "SQL"]
  /\ Vacancy.skills r
     = Some (List.concat (intersperse comma_space
                                 [Py.lit "Python"; Py.lit "SQL"])).
Proof.
  intros env db r.
  assert (Hin : In r (snd (vacancy_step (db, []) Sample.developer)))
    by (vm_compute; left; reflexivity).
  split; [exact Hin|]. split; [vm_compute; reflexivity|].
  destruct (skills_joined db [] Sample.developer r (or_intror Hin))
    as [[[]|[[]|H]] _].
  reflexivity.
Defined.

(** ** Repeated runs *)

Section Runs.

Context {env : Environment}.

Lemma run_inserts (query : str) (w : World) :
  database (fst (get_vacancies query w))
  = insert_vacancies (database w) (scraped_vacancies query).
Proof.
  unfold scraped_vacancies.
  destruct (Z.eq_dec (status_code (vacancy_search query)) 200) as [Hs|Hs].
  - rewrite Hs. cbn [Z.eqb Pos.eqb negb].
    destruct (detect_and_decode (content (vacancy_search query)))
      as [text|e] eqn:Hd.
    + now rewrite (get_vacancies_ok query w text Hs Hd).
    + unfold get_vacancies. fold (vacancy_search query).
      rewrite Hs, Hd. cbn [Z.eqb Pos.eqb negb fst].
      now rewrite insert_vacancies_nil.
  - rewrite (get_vacancies_failed query w Hs).
    apply Z.eqb_neq in Hs. rewrite Hs. cbn [negb fst].
    now rewrite insert_vacancies_nil.
Qed.


End Runs.



(** ** Salaries *)

Section SalaryParsing.

Context {env : Environment}.

Lemma parse_salary_negative (t : str) (v : Z) :
  parse_salary t = Some v -> (v < 0)%Z -> In 45 t.
Proof.
  rewrite parse_salary_int. intros H Hv.
  apply salary_text_In. exact (int_negative _ _ _ H Hv).
Qed.

(** Digits and spaces before the currency token: the clean-up leaves the
    digits. *)
Lemma salary_text_digits_and_spaces (body : str) :
  forallb (fun c => decimal_digit c || (c =? 32)) body = true ->
  salary_text (body ++ rub) = filter decimal_digit body.
Proof.
  intros H.
  assert (E : body ++ rub = body ++ rub ++ []) by now rewrite app_nil_r.
  rewrite E, salary_text_rub. change (salary_text []) with (@nil N).
  rewrite app_nil_r, salary_text_filter, replace_rub_absent.
  - clear E. induction body as [|c body IH]; [reflexivity|].
    cbn [forallb] in H. apply andb_true_iff in H as [Hc Hb].
    cbn [filter]. destruct (N.eqb_spec c 32) as [->|Hne]; cbn [negb].
    + change (decimal_digit 32) with false. exact (IH Hb).
    + rewrite orb_false_r in Hc. rewrite Hc. f_equal. exact (IH Hb).
  - intros Hin. rewrite forallb_forall in H. apply H in Hin.
    vm_compute in Hin. discriminate.
Qed.

Lemma filter_decimal_digits (body : str) :
  forallb decimal_digit (filter decimal_digit body) = true.
Proof.
  apply forallb_forall. intros c Hc. now apply filter_In in Hc.
Qed.

(** Two groups of digits with one character between them that the
    clean-up does not remove and that is neither a digit nor an
    underscore, before the currency token. *)
Lemma parse_salary_separated (a b : str) (w : codepoint) :
  a <> [] -> b <> [] ->
  forallb decimal_digit a = true -> forallb decimal_digit b = true ->
  w <> 95 -> decimal_digit w = false -> cleaned_away w = false ->
  salary_text (a ++ w :: b ++ rub) = a ++ w :: b
  /\ parse_salary (a ++ w :: b ++ rub) = None.
Proof.
  intros Ha Hb Hda Hdb Hw Hd Hc.
  assert (Et : salary_text (a ++ w :: b ++ rub) = a ++ w :: b).
  { assert (E : a ++ w :: b ++ rub = (a ++ w :: b) ++ rub ++ [])
      by now rewrite <- app_assoc, app_nil_r.
    rewrite E, salary_text_rub. change (salary_text []) with (@nil N).
    rewrite app_nil_r.
    unfold cleaned_away in Hc. rewrite !orb_false_iff in Hc.
    destruct Hc as ((((H1 & H2) & H3) & H4) & H5).
    apply N.eqb_neq in H1, H5.
    apply salary_text_clean; rewrite in_app_iff; cbn [In];
      intros [H|[H|H]]; try congruence;
      revert H; apply decimal_digit_In; auto. }
  split; [exact Et|].
  rewrite parse_salary_int, Et. now apply int_separated.
Qed.

End SalaryParsing.

(** C6, as the code has it: the salary of every record that a turn of the
    vacancy loop stores or returns is absent or an integer, and the
    integer is negative only when the text of the sidebar has a minus
    sign. *)
Theorem salary_absent_or_signed {env : Environment} (db : Database)
        (l : list Vacancy.t) (block : Bs4.PageElement) (r : Vacancy.t) :
  In r (vacancies (fst (vacancy_step (db, l) block)))
  \/ In r (snd (vacancy_step (db, l) block)) ->
  In r (vacancies db) \/ In r l
  \/ Vacancy.salary r = None
  \/ exists v : Z,
       Vacancy.salary r = Some v
       /\ ((0 <= v)%Z
           \/ exists element,
                Bs4.select_one (Py.lit ".vacancy-serp-item__sidebar") block
                = Some element
                /\ In 45 (Bs4.text element)).
Proof.
  intros H. apply vacancy_step_added in H as [H|[H|(vac & E & Hr)]]; auto.
  right; right. apply normalize_vacancy_fields in E.
  destruct E as (_ & _ & _ & _ & _ & Hs & _). rewrite <- Hr in Hs.
  cbn [forget_id Vacancy.salary] in Hs. rewrite Hs.
  destruct (Bs4.select_one (Py.lit ".vacancy-serp-item__sidebar") block)
    as [element|]; cbn [salary_of]; [|now left].
  destruct (parse_salary (Bs4.text element)) as [v|] eqn:Ep; [|now left].
  right. exists v. split; [reflexivity|].
  destruct (Z.le_gt_cases 0 v) as [Hv|Hv]; [now left|].
  right. exists element. split; [reflexivity|].
  exact (parse_salary_negative _ _ Ep Hv).
Qed.

Lemma salary_absent_or_signed_witness :
  let env := Sample.serving (Sample.document [Sample.developer]) in
  let db := mkDatabase [] 0 [] 0 in
  let r := Vacancy.make (Some 1%Z) (Some (Py.lit "Developer"))
                        (Some (Py.lit "Write code"))
                        (Some (Py.lit "Python, SQL"))
                        (Some (Py.lit "Remote")) (Some 100000%Z) in
  In r (vacancies (fst (vacancy_step (db, []) Sample.developer)))
  /\ (Vacancy.salary r = None
      \/ exists v : Z,
           Vacancy.salary r = Some v
           /\ ((0 <= v)%Z
               \/ exists element,
                    Bs4.select_one (Py.lit ".vacancy-serp-item__sidebar")
                                   Sample.developer
                    = Some element
                    /\ In 45 (Bs4.text element))).
Proof.
  intros env db r.
  assert (Hin : In r (vacancies
                        (fst (vacancy_step (db, []) Sample.developer))))
    by (vm_compute; left; reflexivity).
  split; [exact Hin|].
  destruct (salary_absent_or_signed db [] Sample.developer r
                                    (or_introl Hin))
    as [[]|[[]|H]].
  exact H.
Defined.

(** C6, as the specification has it, fails: a block whose sidebar reads
    [-5 руб.] is stored and returned with the salary -5. *)
Lemma negative_salary_stored :
  let env := Sample.serving (Sample.document [Sample.debtor]) in
  let run := get_vacancies [] Sample.empty_world in
  exists r : Vacancy.t,
    vacancies (database (fst run)) = [r]
    /\ snd run = Ok [r]
    /\ Vacancy.salary r = Some (-5)%Z
    /\ ~ (Vacancy.salary r = None
          \/ exists v : Z, Vacancy.salary r = Some v /\ (0 <= v)%Z).
Proof.
  intros env run.
  exists (Vacancy.make (Some 1%Z) (Some (Py.lit "Intern"))
                       (Some (Py.lit "Pay to work")) (Some [])
                       (Some (Py.lit "Office")) (Some (-5)%Z)).
  split; [vm_compute; reflexivity|]. split; [vm_compute; reflexivity|].
  split; [reflexivity|]. cbn [Vacancy.salary].
  intros [H|(v & H & Hv)]; [discriminate|].
  injection H as <-. lia.
Qed.

Lemma isspace_not_digit (w : codepoint) :
  Py.isspace w = true -> decimal_digit w = false.
Proof.
  intros H. unfold decimal_digit.
  destruct (Py.to_decimal w) as [d|] eqn:E; [|reflexivity].
  apply to_decimal_not_space in E. congruence.
Qed.

Lemma isspace_kept (w : codepoint) :
  Py.isspace w = true -> w <> 32 -> w <> 95 /\ cleaned_away w = false.
Proof.
  intros H Hw. split.
  - intros ->. vm_compute in H. discriminate.
  - unfold cleaned_away.
    repeat match goal with
           | |- context [N.eqb w ?b] =>
               destruct (N.eqb_spec w b) as [->|?];
               [try congruence; vm_compute in H; discriminate|]
           end.
    reflexivity.
Qed.

(** C3, as the code has it: a sidebar text made of decimal digits and
    ASCII spaces, with at least one digit and no more digits than [int]
    accepts, followed by the currency token, gives the number that the
    digits spell. White space other than the ASCII space is not removed:
    such a character between two groups of digits makes the salary
    absent. In every case the salary is absent exactly when [int] rejects
    the cleaned text; no exception leaves the parsing. *)
Theorem salary_of_digits_and_spaces {env : Environment} (body : str) :
  forallb (fun c => decimal_digit c || (c =? 32)) body = true ->
  filter decimal_digit body <> [] ->
  Py.too_many_digits int_max_str_digits
    (N.of_nat (List.length (filter decimal_digit body))) = false ->
  parse_salary (body ++ rub)
  = Some (decimal_value (filter decimal_digit body))
  /\ (forall (a b : str) (w : codepoint),
         a <> [] -> b <> [] ->
         forallb decimal_digit a = true -> forallb decimal_digit b = true ->
         Py.isspace w = true -> w <> 32 ->
         parse_salary (a ++ w :: b ++ rub) = None)
  /\ (forall t : str,
         parse_salary t = Py.int int_max_str_digits (salary_text t)).
Proof.
  intros Hbody Hne Hlim. split; [|split].
  - rewrite parse_salary_int, (salary_text_digits_and_spaces body Hbody).
    apply int_decimal_digits; auto. apply filter_decimal_digits.
  - intros a b w Ha Hb Hda Hdb Hw Hw32.
    destruct (isspace_kept w Hw Hw32) as [H95 Hkept].
    apply (parse_salary_separated a b w); auto.
    now apply isspace_not_digit.
  - apply parse_salary_int.
Qed.

Lemma salary_of_digits_and_spaces_witness :
  let env := Sample.serving (Sample.document [Sample.developer]) in
  let body := Py.lit "100 000 " in
  forallb (fun c => decimal_digit c || (c =? 32)) body = true
  /\ filter decimal_digit body <> []
  /\ parse_salary (body ++ rub) = Some 100000%Z
  /\ parse_salary (Py.lit "100" ++ nbsp :: Py.lit "000" ++ rub) = None.
Proof.
  intros env body.
  assert (H1 : forallb (fun c => decimal_digit c || (c =? 32)) body = true)
    by (vm_compute; reflexivity).
  assert (H2 : filter decimal_digit body <> [])
    by (vm_compute; discriminate).
  assert (H3 : Py.too_many_digits int_max_str_digits
                 (N.of_nat (List.length (filter decimal_digit body)))
               = false) by (vm_compute; reflexivity).
  destruct (salary_of_digits_and_spaces body H1 H2 H3) as (Hv & Hsep & _).
  split; [exact H1|]. split; [exact H2|]. split.
  - rewrite Hv. vm_compute. reflexivity.
  - apply (Hsep (Py.lit "100") (Py.lit "000") nbsp);
      try (vm_compute; reflexivity); vm_compute; discriminate.
Defined.

(** C3, as the specification has it, fails: a text of the pattern with a
    tab between the digits has no salary, and neither has one with a
    non-breaking space, although the digits spell 1000. *)
Lemma salary_pattern_without_salary :
  let env := Sample.serving (Sample.document [Sample.developer]) in
  let tabbed := Py.lit "1" ++ tab :: Py.lit "000" ++ rub in
  let unbroken := Py.lit "1" ++ nbsp :: Py.lit "000" ++ rub in
  salary_pattern tabbed /\ parse_salary tabbed = None
  /\ salary_pattern unbroken /\ parse_salary unbroken = None
  /\ decimal_value (filter decimal_digit tabbed) = 1000%Z.
Proof.
  intros env tabbed unbroken.
  split; [|split; [|split; [|split]]].
  - exists (Py.lit "1" ++ tab :: Py.lit "000").
    split; [reflexivity|]. split; [discriminate|]. vm_compute. reflexivity.
  - vm_compute. reflexivity.
  - exists (Py.lit "1" ++ nbsp :: Py.lit "000").
    split; [reflexivity|]. split; [discriminate|]. vm_compute. reflexivity.
  - vm_compute. reflexivity.
  - vm_compute. reflexivity.
Qed.

(** C10: the clean-up of the sidebar text takes out the currency token
    wherever it stands and every ASCII space, and nothing else: the other
    characters, tabs and non-breaking spaces among them, stay in their
    order. The salary is what [int] makes of the cleaned text, absent when
    [int] rejects it: digits around a currency token in the middle of the
    text give their number, digits around a tab or a non-breaking space
    give no salary. *)
Theorem salary_cleanup {env : Environment} :
  (forall a b : str,
      salary_text (a ++ rub ++ b) = salary_text a ++ salary_text b)
  /\ (forall a b : str,
         salary_text (a ++ space ++ b) = salary_text a ++ salary_text b)
  /\ (forall t : str,
         filter (fun c => negb (cleaned_away c)) (salary_text t)
         = filter (fun c => negb (cleaned_away c)) t)
  /\ (forall t : str, ~ In 1088 t -> ~ In 32 t -> salary_text t = t)
  /\ (forall t : str,
         parse_salary t = Py.int int_max_str_digits (salary_text t))
  /\ (forall a b : str,
         a ++ b <> [] -> forallb decimal_digit (a ++ b) = true ->
         Py.too_many_digits int_max_str_digits
           (N.of_nat (List.length (a ++ b))) = false ->
         parse_salary (a ++ rub ++ b) = Some (decimal_value (a ++ b)))
  /\ (forall (a b : str) (w : codepoint),
         a <> [] -> b <> [] ->
         forallb decimal_digit a = true -> forallb decimal_digit b = true ->
         w = nbsp \/ w = tab ->
         salary_text (a ++ w :: b ++ rub) = a ++ w :: b
         /\ parse_salary (a ++ w :: b ++ rub) = None).
Proof.
  split; [exact salary_text_rub|]. split; [exact salary_text_space|].
  split; [exact salary_text_kept|]. split; [exact salary_text_clean|].
  split; [exact parse_salary_int|]. split.
  - intros a b Hne Hd Hlim.
    rewrite parse_salary_int, salary_text_rub.
    rewrite forallb_app in Hd. apply andb_true_iff in Hd as [Ha Hb].
    rewrite (salary_text_clean a), (salary_text_clean b);
      try (apply decimal_digit_In; auto; reflexivity).
    apply int_decimal_digits; auto.
    rewrite forallb_app. now rewrite Ha, Hb.
  - intros a b w Ha Hb Hda Hdb [->| ->];
      apply (parse_salary_separated a b); auto; try reflexivity;
        discriminate.
Qed.

Lemma salary_cleanup_witness :
  let env := Sample.serving (Sample.document [Sample.developer]) in
  parse_salary (Py.lit "100" ++ rub ++ Py.lit "000") = Some 100000%Z
  /\ salary_text (Py.lit "100" ++ nbsp :: Py.lit "000" ++ rub)
     = Py.lit "100" ++ nbsp :: Py.lit "000"
  /\ parse_salary (Py.lit "100" ++ nbsp :: Py.lit "000" ++ rub) = None.
Proof.
  intros env.
  destruct salary_cleanup as (_ & _ & _ & _ & _ & Hmid & Hsep).
  split.
  - rewrite (Hmid (Py.lit "100") (Py.lit "000"));
      try (vm_compute; reflexivity). vm_compute. discriminate.
  - apply (Hsep (Py.lit "100") (Py.lit "000") nbsp);
      try (vm_compute; reflexivity); try (vm_compute; discriminate).
    now left.
Defined.

(** ** Detection and decoding *)




(** ** The response of the vacancy endpoint *)

Lemma map_filter_In {A B : Type} (f : A -> option B) (l : list A) (y : B) :
  In y (map_filter f l) -> exists x, In x l /\ f x = Some y.
Proof.
  induction l as [|x l IH]; cbn [map_filter]; [intros []|].
  destruct (f x) as [y'|] eqn:E.
  - intros [<-|H].
    + exists x. split; [now left | exact E].
    + destruct (IH H) as (x' & Hin & Hx). exists x'. split; [now right|auto].
  - intros H. destruct (IH H) as (x' & Hin & Hx).
    exists x'. split; [now right|auto].
Qed.





(** * Further properties of the handlers *)

(** ** Identities *)

Lemma with_ids_range (records : list Vacancy.t) :
  forall (seq : Z) (r : Vacancy.t),
    In r (with_ids seq records) ->
    exists i, Vacancy.id r = Some i
              /\ (seq < i <= seq + Z.of_nat (List.length records))%Z.
Proof.
  induction records as [|x records IH]; intros seq r; cbn [with_ids In].
  - intros [].
  - intros [<-|H].
    + exists (seq + 1)%Z. cbn [Vacancy.id List.length]. split; [reflexivity|].
      lia.
    + destruct (IH _ _ H) as (i & Hi & Hr). exists i. split; [exact Hi|].
      cbn [List.length]. lia.
Qed.

Lemma applicants_with_ids_range (records : list Applicant.t) :
  forall (seq : Z) (r : Applicant.t),
    In r (applicants_with_ids seq records) ->
    exists i, Applicant.id r = Some i
              /\ (seq < i <= seq + Z.of_nat (List.length records))%Z.
Proof.
  induction records as [|x records IH]; intros seq r;
    cbn [applicants_with_ids In].
  - intros [].
  - intros [<-|H].
    + exists (seq + 1)%Z. cbn [Applicant.id List.length].
      split; [reflexivity|]. lia.
    + destruct (IH _ _ H) as (i & Hi & Hr). exists i. split; [exact Hi|].
      cbn [List.length]. lia.
Qed.

Lemma with_ids_NoDup (records : list Vacancy.t) :
  forall seq : Z, NoDup (map Vacancy.id (with_ids seq records)).
Proof.
  induction records as [|x records IH]; intros seq; cbn [with_ids map].
  - constructor.
  - constructor; [|apply IH]. cbn [Vacancy.id]. intros Hin.
    apply in_map_iff in Hin as (r & Hr & Hin).
    apply with_ids_range in Hin as (i & Hi & Hrange).
    rewrite Hi in Hr. injection Hr as ->. lia.
Qed.

Lemma applicants_with_ids_NoDup (records : list Applicant.t) :
  forall seq : Z, NoDup (map Applicant.id (applicants_with_ids seq records)).
Proof.
  induction records as [|x records IH]; intros seq;
    cbn [applicants_with_ids map].
  - constructor.
  - constructor; [|apply IH]. cbn [Applicant.id]. intros Hin.
    apply in_map_iff in Hin as (r & Hr & Hin).
    apply applicants_with_ids_range in Hin as (i & Hi & Hrange).
    rewrite Hi in Hr. injection Hr as ->. lia.
Qed.

Lemma with_ids_nth (records : list Vacancy.t) :
  forall (seq : Z) (k : nat) (r : Vacancy.t),
    nth_error (with_ids seq records) k = Some r ->
    Vacancy.id r = Some (seq + 1 + Z.of_nat k)%Z.
Proof.
  induction records as [|x records IH]; intros seq k r; cbn [with_ids].
  - destruct k; discriminate.
  - destruct k as [|k]; cbn [nth_error].
    + intros [= <-]. cbn [Vacancy.id]. f_equal. lia.
    + intros H. rewrite (IH _ _ _ H). f_equal. lia.
Qed.

Lemma applicants_with_ids_nth (records : list Applicant.t) :
  forall (seq : Z) (k : nat) (r : Applicant.t),
    nth_error (applicants_with_ids seq records) k = Some r ->
    Applicant.id r = Some (seq + 1 + Z.of_nat k)%Z.
Proof.
  induction records as [|x records IH]; intros seq k r;
    cbn [applicants_with_ids].
  - destruct k; discriminate.
  - destruct k as [|k]; cbn [nth_error].
    + intros [= <-]. cbn [Applicant.id]. f_equal. lia.
    + intros H. rewrite (IH _ _ _ H). f_equal. lia.
Qed.


Lemma insert_vacancies_fresh (db : Database) (records : list Vacancy.t) :
  identities_fresh db -> identities_fresh (insert_vacancies db records).
Proof.
  intros (Hnd & Hle & Hnd' & Hle'). unfold identities_fresh, insert_vacancies.
  cbn [vacancies vacancies_id_seq applicants applicants_id_seq].
  split; [|split; [|split; [exact Hnd' | exact Hle']]].
  - rewrite map_app. apply NoDup_app; [exact Hnd | apply with_ids_NoDup|].
    intros a Ha Hb. apply in_map_iff in Ha as (r & <- & Hr).
    apply in_map_iff in Hb as (r' & Hid & Hr').
    destruct (Hle r Hr) as (i & Hi & Hbound).
    apply with_ids_range in Hr' as (i' & Hi' & Hrange).
    rewrite Hi, Hi' in Hid. injection Hid as ->. lia.
  - intros r Hr. apply in_app_iff in Hr as [Hr|Hr].
    + destruct (Hle r Hr) as (i & Hi & Hbound). exists i. split; [auto|lia].
    + apply with_ids_range in Hr as (i & Hi & Hrange).
      exists i. split; [auto|lia].
Qed.

Lemma insert_applicants_fresh (db : Database) (records : list Applicant.t) :
  identities_fresh db -> identities_fresh (insert_applicants db records).
Proof.
  intros (Hnd & Hle & Hnd' & Hle'). unfold identities_fresh, insert_applicants.
  cbn [vacancies vacancies_id_seq applicants applicants_id_seq].
  split; [exact Hnd|]. split; [exact Hle|]. split.
  - rewrite map_app.
    apply NoDup_app; [exact Hnd' | apply applicants_with_ids_NoDup|].
    intros a Ha Hb. apply in_map_iff in Ha as (r & <- & Hr).
    apply in_map_iff in Hb as (r' & Hid & Hr').
    destruct (Hle' r Hr) as (i & Hi & Hbound).
    apply applicants_with_ids_range in Hr' as (i' & Hi' & Hrange).
    rewrite Hi, Hi' in Hid. injection Hid as ->. lia.
  - intros r Hr. apply in_app_iff in Hr as [Hr|Hr].
    + destruct (Hle' r Hr) as (i & Hi & Hbound). exists i. split; [auto|lia].
    + apply applicants_with_ids_range in Hr as (i & Hi & Hrange).
      exists i. split; [auto|lia].
Qed.

Section RunFacts.

Context {env : Environment}.

(** What a run of a handler comes to: the world after it and the value it
    returns or the exception it raises. *)
Lemma get_vacancies_cases (query : str) (w : World) :
  (status_code (vacancy_search query) <> 200%Z
   /\ get_vacancies query w
      = (w, Raise (HTTPException (status_code (vacancy_search query))
                                 fetch_error)))
  \/ (status_code (vacancy_search query) = 200%Z
      /\ exists e,
           detect_and_decode (content (vacancy_search query)) = Raise e
           /\ get_vacancies query w = (w, Raise e))
  \/ (status_code (vacancy_search query) = 200%Z
      /\ exists text,
           detect_and_decode (content (vacancy_search query)) = Ok text
           /\ get_vacancies query w
              = (mkWorld (insert_vacancies
                            (database w)
                            (map_filter normalize_vacancy
                                        (vacancy_blocks text)))
                         (Some text),
                 Ok (with_ids (vacancies_id_seq (database w))
                              (map_filter normalize_vacancy
                                          (vacancy_blocks text))))).
Proof.
  destruct (Z.eq_dec (status_code (vacancy_search query)) 200) as [Hs|Hs].
  - right. destruct (detect_and_decode (content (vacancy_search query)))
      as [text|e] eqn:Hd.
    + right. split; [exact Hs|]. exists text. split; [reflexivity|].
      exact (get_vacancies_ok query w text Hs Hd).
    + left. split; [exact Hs|]. exists e. split; [reflexivity|].
      unfold get_vacancies. fold (vacancy_search query).
      rewrite Hs, Hd. reflexivity.
  - left. split; [exact Hs|]. exact (get_vacancies_failed query w Hs).
Qed.

Lemma get_applicants_cases (query : str) (w : World) :
  (status_code (resume_search query) <> 200%Z
   /\ get_applicants query w
      = (w, Raise (HTTPException (status_code (resume_search query))
                                 fetch_error)))
  \/ (status_code (resume_search query) = 200%Z
      /\ exists e,
           detect_and_decode (content (resume_search query)) = Raise e
           /\ get_applicants query w = (w, Raise e))
  \/ (status_code (resume_search query) = 200%Z
      /\ exists text,
           detect_and_decode (content (resume_search query)) = Ok text
           /\ get_applicants query w
              = (mkWorld (insert_applicants
                            (database w)
                            (map_filter normalize_applicant
                                        (applicant_blocks text)))
                         (page_content_html w),
                 Ok (applicants_with_ids
                       (applicants_id_seq (database w))
                       (map_filter normalize_applicant
                                   (applicant_blocks text))))).
Proof.
  destruct (Z.eq_dec (status_code (resume_search query)) 200) as [Hs|Hs].
  - right. destruct (detect_and_decode (content (resume_search query)))
      as [text|e] eqn:Hd.
    + right. split; [exact Hs|]. exists text. split; [reflexivity|].
      exact (get_applicants_ok query w text Hs Hd).
    + left. split; [exact Hs|]. exists e. split; [reflexivity|].
      unfold get_applicants. fold (resume_search query).
      rewrite Hs, Hd. reflexivity.
  - left. split; [exact Hs|]. exact (get_applicants_failed query w Hs).
Qed.

Lemma run_inserts_applicants (query : str) (w : World) :
  database (fst (get_applicants query w))
  = insert_applicants (database w) (scraped_applicants query).
Proof.
  unfold scraped_applicants.
  destruct (get_applicants_cases query w)
    as [[Hs E]|[(Hs & e & Hd & E)|(Hs & text & Hd & E)]]; rewrite E;
    cbn [fst database].
  - apply Z.eqb_neq in Hs. rewrite Hs. cbn [negb].
    now rewrite insert_applicants_nil.
  - rewrite Hs, Hd. cbn [Z.eqb Pos.eqb negb].
    now rewrite insert_applicants_nil.
  - rewrite Hs, Hd. reflexivity.
Qed.

Lemma run_returns (query : str) (w : World) (returned : list Vacancy.t) :
  snd (get_vacancies query w) = Ok returned ->
  returned = with_ids (vacancies_id_seq (database w))
                      (scraped_vacancies query).
Proof.
  unfold scraped_vacancies.
  destruct (get_vacancies_cases query w)
    as [[Hs E]|[(Hs & e & Hd & E)|(Hs & text & Hd & E)]]; rewrite E;
    cbn [snd]; try discriminate.
  intros [= <-]. rewrite Hs, Hd. reflexivity.
Qed.

Lemma run_returns_applicants (query : str) (w : World)
      (returned : list Applicant.t) :
  snd (get_applicants query w) = Ok returned ->
  returned = applicants_with_ids (applicants_id_seq (database w))
                                 (scraped_applicants query).
Proof.
  unfold scraped_applicants.
  destruct (get_applicants_cases query w)
    as [[Hs E]|[(Hs & e & Hd & E)|(Hs & text & Hd & E)]]; rewrite E;
    cbn [snd]; try discriminate.
  intros [= <-]. rewrite Hs, Hd. reflexivity.
Qed.

End RunFacts.

(** X1. The identities of the store stay fresh under both handlers: after
    a run every row still has an identity of its own, none above the last
    value of the sequence; and the records that a run returns carry the
    next values of the sequence, one after the other. *)
Theorem identities_stay_fresh {env : Environment} (query : str) (w : World) :
  identities_fresh (database w) ->
  identities_fresh (database (fst (get_vacancies query w)))
  /\ identities_fresh (database (fst (get_applicants query w)))
  /\ (forall returned k r,
         snd (get_vacancies query w) = Ok returned ->
         nth_error returned k = Some r ->
         Vacancy.id r
         = Some (vacancies_id_seq (database w) + 1 + Z.of_nat k)%Z)
  /\ (forall returned k r,
         snd (get_applicants query w) = Ok returned ->
         nth_error returned k = Some r ->
         Applicant.id r
         = Some (applicants_id_seq (database w) + 1 + Z.of_nat k)%Z).
Proof.
  intros Hfresh. split; [|split; [|split]].
  - rewrite run_inserts. now apply insert_vacancies_fresh.
  - rewrite run_inserts_applicants. now apply insert_applicants_fresh.
  - intros returned k r Hr Hk. apply run_returns in Hr. subst returned.
    exact (with_ids_nth _ _ _ _ Hk).
  - intros returned k r Hr Hk. apply run_returns_applicants in Hr.
    subst returned. exact (applicants_with_ids_nth _ _ _ _ Hk).
Qed.

Lemma identities_stay_fresh_witness :
  let env := Sample.serving
               (Sample.document [Sample.developer; Sample.engineer]) in
  let w := mkWorld (mkDatabase [] 4 [] 0) None in
  identities_fresh (database w)
  /\ identities_fresh (database (fst (get_vacancies [] w)))
  /\ map Vacancy.id (vacancies (database (fst (get_vacancies [] w))))
     = [Some 5%Z; Some 6%Z].
Proof.
  intros env w.
  assert (H : identities_fresh (database w)).
  { repeat split; try constructor; intros r []. }
  split; [exact H|]. split.
  - exact (proj1 (identities_stay_fresh [] w H)).
  - vm_compute. reflexivity.
Defined.

(** ** The rows of the store *)

Section RowFacts.

Context {env : Environment}.

Lemma normalize_applicant_fields (block : Bs4.PageElement)
      (r : Applicant.t) :
  normalize_applicant block = Some r ->
  Applicant.id r = None
  /\ Applicant.name r
     = text_of_one (Py.lit ".resume-search-item__fullname") block
  /\ Applicant.skills r
     = Some (Py.join comma_space
               (map Bs4.text
                    (Bs4.select (Py.lit ".bloko-tag__section_text") block)))
  /\ Py.truthy_opt (Applicant.name r) = true.
Proof.
  unfold normalize_applicant.
  destruct (text_of_one (Py.lit ".resume-search-item__fullname") block)
    as [[|c name]|]; try discriminate.
  intros H. injection H as <-. cbn. repeat split.
Qed.



Lemma with_ids_well_formed (records : list Vacancy.t) :
  Forall (fun r => exists block, normalize_vacancy block = Some r) records ->
  forall seq : Z, Forall vacancy_well_formed (with_ids seq records).
Proof.
  induction 1 as [|r records (block & Hn) _ IH]; intros seq;
    cbn [with_ids]; constructor; [|apply IH].
  apply normalize_vacancy_fields in Hn.
  destruct Hn as (_ & _ & _ & Hs & _ & _ & Ht & Hd).
  unfold vacancy_well_formed. cbn. rewrite Hs.
  split; [exact Ht|]. split; [exact Hd|]. split; discriminate.
Qed.

Lemma applicants_with_ids_well_formed (records : list Applicant.t) :
  Forall (fun r => exists block, normalize_applicant block = Some r)
         records ->
  forall seq : Z,
    Forall applicant_well_formed (applicants_with_ids seq records).
Proof.
  induction 1 as [|r records (block & Hn) _ IH]; intros seq;
    cbn [applicants_with_ids]; constructor; [|apply IH].
  apply normalize_applicant_fields in Hn.
  destruct Hn as (_ & _ & Hs & Ht).
  unfold applicant_well_formed. cbn. rewrite Hs.
  split; [exact Ht|]. split; discriminate.
Qed.

Lemma map_filter_Forall {A B : Type} (f : A -> option B) (l : list A) :
  Forall (fun y => exists x, f x = Some y) (map_filter f l).
Proof.
  apply Forall_forall. intros y Hy.
  apply map_filter_In in Hy as (x & _ & Hx). now exists x.
Qed.

Lemma scraped_vacancies_normalized (query : str) :
  Forall (fun r => exists block, normalize_vacancy block = Some r)
         (scraped_vacancies query).
Proof.
  unfold scraped_vacancies.
  destruct (negb (status_code (vacancy_search query) =? 200)%Z);
    [constructor|].
  destruct (detect_and_decode (content (vacancy_search query)));
    [apply map_filter_Forall | constructor].
Qed.

Lemma scraped_applicants_normalized (query : str) :
  Forall (fun r => exists block, normalize_applicant block = Some r)
         (scraped_applicants query).
Proof.
  unfold scraped_applicants.
  destruct (negb (status_code (resume_search query) =? 200)%Z);
    [constructor|].
  destruct (detect_and_decode (content (resume_search query)));
    [apply map_filter_Forall | constructor].
Qed.




End RowFacts.

(** X2. The handlers keep the rows of the store well formed: when every
    vacancy row has a non-empty title and description, every applicant row
    a non-empty name, and all have their skills string and identity, the
    same holds after a run of either handler, whatever the page. *)
Theorem rows_stay_well_formed {env : Environment} (query : str) (w : World) :
  rows_well_formed (database w) ->
  rows_well_formed (database (fst (get_vacancies query w)))
  /\ rows_well_formed (database (fst (get_applicants query w))).
Proof.
  intros [Hv Ha]. split.
  - rewrite run_inserts. split; [|exact Ha].
    cbn [insert_vacancies vacancies]. apply Forall_app. split; [exact Hv|].
    apply with_ids_well_formed, scraped_vacancies_normalized.
  - rewrite run_inserts_applicants. split; [exact Hv|].
    cbn [insert_applicants applicants]. apply Forall_app.
    split; [exact Ha|].
    apply applicants_with_ids_well_formed, scraped_applicants_normalized.
Qed.

Lemma rows_stay_well_formed_witness :
  let env := Sample.serving
               (Sample.document [Sample.untitled; Sample.engineer]) in
  rows_well_formed (database Sample.empty_world)
  /\ rows_well_formed (database (fst (get_vacancies [] Sample.empty_world)))
  /\ count_vacancies (database (fst (get_vacancies [] Sample.empty_world)))
     = 1%nat.
Proof.
  intros env.
  assert (H : rows_well_formed (database Sample.empty_world))
    by (split; constructor).
  split; [exact H|]. split.
  - exact (proj1 (rows_stay_well_formed [] Sample.empty_world H)).
  - vm_compute. reflexivity.
Defined.

(** ** Counting *)



(** ** Errors *)

Section ErrorFacts.

Context {env : Environment}.







End ErrorFacts.







(** ** What a run leaves alone *)

(** X7. A handler only ever appends to its own table: the rows that were
    stored stay as they are, in their order; the vacancy handler leaves
    the applicant table and its sequence alone, and the applicant handler
    the vacancy table, its sequence and the debugging file. Only a run of
    the vacancy handler that returns a list writes the file, with the
    decoded text of the page. *)
Theorem runs_only_append {env : Environment} (query : str) (w : World) :
  (exists added,
      vacancies (database (fst (get_vacancies query w)))
      = vacancies (database w) ++ added)
  /\ applicants (database (fst (get_vacancies query w)))
     = applicants (database w)
  /\ applicants_id_seq (database (fst (get_vacancies query w)))
     = applicants_id_seq (database w)
  /\ (exists added,
         applicants (database (fst (get_applicants query w)))
         = applicants (database w) ++ added)
  /\ vacancies (database (fst (get_applicants query w)))
     = vacancies (database w)
  /\ vacancies_id_seq (database (fst (get_applicants query w)))
     = vacancies_id_seq (database w)
  /\ page_content_html (fst (get_applicants query w)) = page_content_html w
  /\ (forall returned,
         snd (get_vacancies query w) = Ok returned ->
         exists text,
           detect_and_decode (content (vacancy_search query)) = Ok text
           /\ page_content_html (fst (get_vacancies query w)) = Some text).
Proof.
  rewrite run_inserts, run_inserts_applicants.
  cbn [insert_vacancies insert_applicants vacancies vacancies_id_seq
       applicants applicants_id_seq].
  split; [eexists; reflexivity|]. split; [reflexivity|].
  split; [reflexivity|]. split; [eexists; reflexivity|].
  split; [reflexivity|]. split; [reflexivity|]. split.
  - destruct (get_applicants_cases query w)
      as [[_ E]|[(_ & e & _ & E)|(_ & text & _ & E)]]; rewrite E;
      reflexivity.
  - intros returned.
    destruct (get_vacancies_cases query w)
      as [[_ E]|[(_ & e & _ & E)|(_ & text & Hd & E)]]; rewrite E;
      cbn [fst snd]; try discriminate.
    intros _. exists text. split; [exact Hd | reflexivity].
Qed.

Lemma runs_only_append_witness :
  let env := Sample.serving (Sample.document [Sample.developer]) in
  let w := mkWorld (mkDatabase [] 7 [] 3) (Some (Py.lit "old")) in
  (exists returned, snd (get_vacancies [] w) = Ok returned)
  /\ page_content_html (fst (get_vacancies [] w)) = Some (Py.lit "hh")
  /\ page_content_html (fst (get_applicants [] w)) = Some (Py.lit "old").
Proof.
  intros env w.
  destruct (runs_only_append [] w) as (_ & _ & _ & _ & _ & _ & Hfile & Hw).
  assert (Hr : snd (get_vacancies [] w)
               = Ok (with_ids 7 (scraped_vacancies [])))
    by (vm_compute; reflexivity).
  split; [eexists; exact Hr|]. split.
  - destruct (Hw _ Hr) as (text & Hd & Hp). rewrite Hp. f_equal.
    assert (Hd' : detect_and_decode (content (vacancy_search []))
                  = Ok (Py.lit "hh")) by (vm_compute; reflexivity).
    rewrite Hd' in Hd. now injection Hd as <-.
  - exact Hfile.
Defined.

(** ** The skills string *)

(** X8. The skills string does not keep the token boundaries: a token that
    holds the separator is stored exactly like the two tokens around that
    separator. *)
Theorem join_forgets_boundaries (sep a b : str) (rest : list str) :
  Py.join sep ((a ++ sep ++ b) :: rest) = Py.join sep (a :: b :: rest)
  /\ (a ++ sep ++ b) :: rest <> a :: b :: rest.
Proof.
  split.
  - destruct rest as [|c rest]; cbn [Py.join].
    + reflexivity.
    + now rewrite <- !app_assoc.
  - intros H. apply (f_equal (@List.length str)) in H.
    cbn [List.length] in H. lia.
Qed.

(** ** More on salaries *)

Lemma skip_spaces_all (s : str) :
  Py.skip_spaces s = [] -> forallb Py.c_isspace s = true.
Proof.
  induction s as [|c s IH]; [reflexivity|]. cbn [Py.skip_spaces forallb].
  destruct (Py.c_isspace c); [exact IH | discriminate].
Qed.

Lemma skip_spaces_split (s : str) :
  exists sp, s = sp ++ Py.skip_spaces s /\ forallb Py.c_isspace sp = true.
Proof.
  induction s as [|c s (sp & Hs & Hsp)]; [now exists []|].
  cbn [Py.skip_spaces]. destruct (Py.c_isspace c) eqn:E.
  - exists (c :: sp). cbn [app forallb]. rewrite E, Hsp. split; [|reflexivity].
    now rewrite <- Hs.
  - now exists [].
Qed.

Lemma skip_spaces_app (sp s : str) :
  forallb Py.c_isspace sp = true ->
  Py.skip_spaces (sp ++ s) = Py.skip_spaces s.
Proof.
  induction sp as [|c sp IH]; [reflexivity|]. cbn [forallb app Py.skip_spaces].
  rewrite andb_true_iff. intros [-> H]. exact (IH H).
Qed.

Lemma space_in_alphabet (s : str) :
  forallb Py.c_isspace s = true -> forallb int_alphabet s = true.
Proof.
  rewrite !forallb_forall. intros H c Hc. unfold int_alphabet.
  now rewrite (H c Hc).
Qed.

(** What the digit scan passes over is digits and underscores. *)
Lemma scan_digits_consumed (s : str) :
  forall (prev : codepoint) (n n' : N) (v v' : Z) (rest : str),
    Py.scan_digits prev n v s = Some (n', v', rest) ->
    exists consumed,
      s = consumed ++ rest /\ forallb int_alphabet consumed = true.
Proof.
  induction s as [|c s IH]; intros prev n n' v v' rest;
    cbn [Py.scan_digits].
  - destruct (prev =? 95); [discriminate|]. intros [= _ _ <-]. now exists [].
  - destruct (c =? 95) eqn:Eu.
    + destruct (prev =? 95); [discriminate|]. intros H.
      destruct (IH _ _ _ _ _ _ H) as (consumed & -> & Hc).
      exists (c :: consumed). split; [reflexivity|]. cbn [forallb].
      unfold int_alphabet at 1. rewrite Eu, Hc. now rewrite !orb_true_r.
    + destruct (Py.c_isdigit c) eqn:Ed.
      * intros H. destruct (IH _ _ _ _ _ _ H) as (consumed & -> & Hc).
        exists (c :: consumed). split; [reflexivity|]. cbn [forallb].
        unfold int_alphabet at 1. rewrite Ed, Hc.
        now rewrite orb_true_r.
      * destruct (prev =? 95); [discriminate|]. intros [= _ _ <-].
        now exists [].
Qed.

(** [PyLong_FromString] accepts nothing outside its alphabet. *)
Lemma long_from_string_alphabet (limit : N) (s : str) (v : Z) :
  Py.long_from_string limit s = Some v -> forallb int_alphabet s = true.
Proof.
  unfold Py.long_from_string. intros H.
  destruct (skip_spaces_split s) as (sp & Hs & Hsp). rewrite Hs.
  rewrite forallb_app, (space_in_alphabet _ Hsp). cbn [andb].
  assert (Hbody : forall s2,
             (if Py.leading_underscore s2 then None
              else match Py.scan_digits 0 0 0%Z s2 with
                   | None => None
                   | Some (digits, value, rest) =>
                       if Py.too_many_digits limit digits then None
                       else if digits =? 0 then None
                       else match Py.skip_spaces rest with
                            | [] => Some (1 * value)%Z
                            | _ :: _ => None
                            end
                   end) <> None
             \/ (if Py.leading_underscore s2 then None
                 else match Py.scan_digits 0 0 0%Z s2 with
                      | None => None
                      | Some (digits, value, rest) =>
                          if Py.too_many_digits limit digits then None
                          else if digits =? 0 then None
                          else match Py.skip_spaces rest with
                               | [] => Some (-1 * value)%Z
                               | _ :: _ => None
                               end
                      end) <> None ->
             forallb int_alphabet s2 = true).
  { intros s2 Hs2. destruct (Py.leading_underscore s2);
      [destruct Hs2; congruence|].
    destruct (Py.scan_digits 0 0 0%Z s2) as [[[n' v'] rest]|] eqn:E;
      [|destruct Hs2; congruence].
    apply scan_digits_consumed in E as (consumed & -> & Hc).
    destruct (Py.too_many_digits limit n'); [destruct Hs2; congruence|].
    destruct (n' =? 0); [destruct Hs2; congruence|].
    destruct (Py.skip_spaces rest) eqn:Er; [|destruct Hs2; congruence].
    rewrite forallb_app, Hc. cbn [andb].
    apply space_in_alphabet, skip_spaces_all, Er. }
  destruct (Py.skip_spaces s) as [|c r]; [reflexivity|].
  cbn [Py.read_sign] in H. cbn [forallb].
  destruct (c =? 43) eqn:E43.
  - unfold int_alphabet at 1. rewrite E43, !orb_true_r. cbn [andb orb].
    apply Hbody. left. rewrite H. discriminate.
  - destruct (c =? 45) eqn:E45.
    + unfold int_alphabet at 1. rewrite E45, !orb_true_r. cbn [andb orb].
      apply Hbody. right. rewrite H. discriminate.
    + change (int_alphabet c && forallb int_alphabet r)
        with (forallb int_alphabet (c :: r)).
      apply Hbody. left. rewrite H. discriminate.
Qed.

Lemma c_isspace_isspace (c : codepoint) :
  Py.c_isspace c = true -> Py.isspace c = true.
Proof.
  unfold Py.c_isspace, Py.isspace. intros H.
  apply orb_true_iff in H as [H|H].
  - rewrite H. reflexivity.
  - apply N.eqb_eq in H. subst c. reflexivity.
Qed.

Lemma reads_nothing_outside (c : codepoint) :
  reads_nothing c = true -> c < 127 -> int_alphabet c = false.
Proof.
  unfold reads_nothing, int_alphabet.
  rewrite !andb_true_iff, !negb_true_iff. intros [[Hs Hd] Hsign] _.
  apply orb_false_iff in Hsign as [Hsign H95].
  apply orb_false_iff in Hsign as [H43 H45].
  rewrite H43, H45, H95, !orb_false_r.
  destruct (Py.c_isspace c) eqn:E1.
  - apply c_isspace_isspace in E1. congruence.
  - destruct (Py.c_isdigit c) eqn:E2; [|reflexivity].
    apply isdigit_decimal_digit in E2. congruence.
Qed.

(** A character that [int] cannot read leaves a trace in the ASCII form:
    itself, or the question mark that ends the form. *)
Lemma transform_keeps_trace (c : codepoint) (t : str) :
  In c t -> reads_nothing c = true ->
  exists x, In x (Py.transform_decimal_and_space t)
            /\ int_alphabet x = false.
Proof.
  intros Hin Hc. induction t as [|ch t IH]; [destruct Hin|].
  cbn [Py.transform_decimal_and_space].
  destruct (N.ltb_spec ch 127) as [L|L].
  - destruct Hin as [->|Hin].
    + exists c. split; [now left|]. now apply reads_nothing_outside.
    + destruct (IH Hin) as (x & Hx & Hax). exists x. split; [now right|auto].
  - destruct (Py.isspace ch) eqn:Es.
    + destruct Hin as [->|Hin].
      * unfold reads_nothing in Hc. rewrite Es in Hc. discriminate.
      * destruct (IH Hin) as (x & Hx & Hax).
        exists x. split; [now right|auto].
    + destruct (Py.to_decimal ch) as [d|] eqn:Ed.
      * destruct Hin as [->|Hin].
        -- unfold reads_nothing, decimal_digit in Hc. rewrite Ed in Hc.
           rewrite andb_false_r in Hc. discriminate.
        -- destruct (IH Hin) as (x & Hx & Hax).
           exists x. split; [now right|auto].
      * exists 63. split; [now left | reflexivity].
Qed.

Lemma int_rejects (limit : N) (c : codepoint) (t : str) :
  In c t -> reads_nothing c = true -> Py.int limit t = None.
Proof.
  intros Hin Hc. unfold Py.int.
  destruct (Py.long_from_string limit (Py.transform_decimal_and_space t))
    as [v|] eqn:E; [|reflexivity].
  apply long_from_string_alphabet in E. rewrite forallb_forall in E.
  destruct (transform_keeps_trace c t Hin Hc) as (x & Hx & Hax).
  rewrite (E x Hx) in Hax. discriminate.
Qed.

(** X9. One foreign character anywhere in the sidebar text, that is one
    that is no digit, no white space, no sign, no underscore and no
    character of the currency token, and the salary is absent: a letter, a
    currency sign, the dash of a range. *)
Theorem foreign_character_no_salary {env : Environment} (t : str)
        (c : codepoint) :
  In c t -> foreign c = true -> parse_salary t = None.
Proof.
  intros Hin Hc. rewrite parse_salary_int.
  unfold foreign in Hc. rewrite !andb_true_iff in Hc.
  destruct Hc as [[[Hclean Hs] Hd] Hsign].
  apply (int_rejects _ c).
  - assert (H : In c (filter (fun c => negb (cleaned_away c))
                             (salary_text t))).
    { rewrite salary_text_kept. apply filter_In. now split. }
    now apply filter_In in H.
  - unfold reads_nothing. now rewrite Hs, Hd, Hsign.
Qed.

Lemma foreign_character_no_salary_witness :
  let env := Sample.serving (Sample.document [Sample.developer]) in
  let range := Py.lit "100 000 " ++ 8211 :: Py.lit " 150 000 " ++ rub in
  let dollars := Py.lit "2 000 $" in
  In 8211 range /\ foreign 8211 = true /\ parse_salary range = None
  /\ In 36 dollars /\ foreign 36 = true /\ parse_salary dollars = None.
Proof.
  intros env range dollars.
  assert (H1 : In 8211 range)
    by (vm_compute; repeat first [left; reflexivity | right]).
  assert (H2 : foreign 8211 = true) by (vm_compute; reflexivity).
  assert (H3 : In 36 dollars)
    by (vm_compute; repeat first [left; reflexivity | right]).
  assert (H4 : foreign 36 = true) by (vm_compute; reflexivity).
  split; [exact H1|]. split; [exact H2|].
  split; [exact (foreign_character_no_salary range 8211 H1 H2)|].
  split; [exact H3|]. split; [exact H4|].
  exact (foreign_character_no_salary dollars 36 H3 H4).
Defined.

Lemma digits_body (ds rest : str) :
  ds <> [] -> forallb Py.c_isdigit ds = true -> scan_stops rest = true ->
  Py.leading_underscore (ds ++ rest) = false
  /\ Py.scan_digits 0 0 0%Z (ds ++ rest)
     = Some (N.of_nat (List.length ds), ascii_value ds, rest)
  /\ (N.of_nat (List.length ds) =? 0) = false.
Proof.
  intros Hne Hds Hrest.
  assert (Hlast := last_isdigit ds 0 Hne Hds).
  split; [|split].
  - destruct ds as [|c ds]; [congruence|]. cbn [forallb] in Hds.
    apply andb_true_iff in Hds as [Hc _]. cbn [app Py.leading_underscore].
    now apply isdigit_not_underscore.
  - rewrite (scan_digits_run _ Hds), N.add_0_l.
    apply scan_digits_stop; [exact Hrest|].
    now apply isdigit_not_underscore.
  - destruct ds; [congruence|]. apply N.eqb_neq. cbn [List.length]. lia.
Qed.

(** [PyLong_FromString] on an optional sign, digits, and something that
    stops the scan. *)
Lemma long_from_string_signed (limit : N) (sign ds rest : str) (sg : Z) :
  sign_value sign = Some sg ->
  ds <> [] -> forallb Py.c_isdigit ds = true -> scan_stops rest = true ->
  Py.long_from_string limit (sign ++ ds ++ rest)
  = if Py.too_many_digits limit (N.of_nat (List.length ds)) then None
    else match Py.skip_spaces rest with
         | [] => Some (sg * ascii_value ds)%Z
         | _ :: _ => None
         end.
Proof.
  intros Hsign Hne Hds Hrest.
  destruct (digits_body ds rest Hne Hds Hrest) as (Hu & Hscan & Hz).
  assert (Hbody : forall sg',
             (if Py.leading_underscore (ds ++ rest) then None
              else match Py.scan_digits 0 0 0%Z (ds ++ rest) with
                   | None => None
                   | Some (digits, value, rest') =>
                       if Py.too_many_digits limit digits then None
                       else if digits =? 0 then None
                       else match Py.skip_spaces rest' with
                            | [] => Some (sg' * value)%Z
                            | _ :: _ => None
                            end
                   end)
             = if Py.too_many_digits limit (N.of_nat (List.length ds))
               then None
               else match Py.skip_spaces rest with
                    | [] => Some (sg' * ascii_value ds)%Z
                    | _ :: _ => None
                    end).
  { intros sg'. now rewrite Hu, Hscan, Hz. }
  destruct sign as [|c [|c' sign]]; cbn [sign_value] in Hsign;
    [| |discriminate].
  - injection Hsign as <-. cbn [app].
    rewrite long_from_string_run by assumption.
    destruct (Py.too_many_digits _ _); [reflexivity|].
    destruct (Py.skip_spaces rest); [|reflexivity].
    now rewrite Z.mul_1_l.
  - unfold Py.long_from_string. cbn [app].
    destruct (N.eqb_spec c 43) as [->|H43].
    + injection Hsign as <-. exact (Hbody 1%Z).
    + destruct (N.eqb_spec c 45) as [->|H45]; [|discriminate].
      injection Hsign as <-. exact (Hbody (-1)%Z).
Qed.

Lemma blank_ascii (w : codepoint) :
  blank w = true -> w < 127 -> Py.c_isspace w = true.
Proof.
  unfold blank, Py.isspace, Py.c_isspace.
  rewrite andb_true_iff, negb_true_iff. intros [Hs Hsep] L.
  repeat match goal with
         | H : (_ || _) = true |- _ => apply orb_true_iff in H as [H|H]
         | H : (_ && _) = true |- _ => apply andb_true_iff in H as [? ?]
         | H : (_ <=? _) = true |- _ => apply N.leb_le in H
         | H : (_ =? _) = true |- _ => apply N.eqb_eq in H
         end;
    try lia.
  - apply orb_true_iff. left. apply andb_true_iff.
    split; apply N.leb_le; lia.
  - apply andb_false_iff in Hsep as [Hsep|Hsep]; apply N.leb_gt in Hsep.
    + lia.
    + apply orb_true_iff. right. apply N.eqb_eq. lia.
Qed.

Lemma blank_isspace (w : codepoint) : blank w = true -> Py.isspace w = true.
Proof. unfold blank. now rewrite andb_true_iff. Qed.

(** White space at an end of the text is white space of the ASCII form. *)
Lemma transform_blanks (sp rest : str) :
  forallb blank sp = true ->
  exists sp',
    Py.transform_decimal_and_space (sp ++ rest)
    = sp' ++ Py.transform_decimal_and_space rest
    /\ forallb Py.c_isspace sp' = true.
Proof.
  induction sp as [|w sp IH]; [now exists []|]. cbn [forallb].
  rewrite andb_true_iff. intros [Hw Hsp].
  destruct (IH Hsp) as (sp' & Hsp' & Hall).
  cbn [app Py.transform_decimal_and_space]. rewrite Hsp'.
  destruct (N.ltb_spec w 127) as [L|L].
  - exists (w :: sp'). split; [reflexivity|]. cbn [forallb].
    now rewrite (blank_ascii _ Hw L), Hall.
  - rewrite (blank_isspace _ Hw). exists (32 :: sp').
    split; [reflexivity|]. cbn [forallb]. now rewrite Hall.
Qed.

Lemma c_isspace_stops (sp : str) :
  forallb Py.c_isspace sp = true -> scan_stops sp = true.
Proof.
  destruct sp as [|c sp]; [reflexivity|]. cbn [forallb scan_stops].
  rewrite andb_true_iff. intros [Hc _].
  assert (H95 : (c =? 95) = false).
  { destruct (N.eqb_spec c 95) as [->|]; [discriminate Hc|reflexivity]. }
  assert (Hd : Py.c_isdigit c = false).
  { destruct (Py.c_isdigit c) eqn:E; [|reflexivity].
    apply isdigit_not_space in E. congruence. }
  now rewrite H95, Hd.
Qed.

Lemma filter_spaces_digits (ds : str) :
  forallb decimal_digit ds = true ->
  @filter codepoint (fun c : N => negb (c =? 32)) ds = ds.
Proof.
  induction ds as [|c ds IH]; [reflexivity|]. cbn [forallb filter].
  rewrite andb_true_iff. intros [Hc Hds].
  destruct (N.eqb_spec c 32) as [->|_]; [discriminate Hc|].
  cbn [negb]. now rewrite (IH Hds).
Qed.

Lemma filter_spaces_blank (sp : str) :
  forallb blank sp = true ->
  forallb blank (@filter codepoint (fun c : N => negb (c =? 32)) sp)
  = true.
Proof.
  rewrite !forallb_forall. intros H c Hc. apply filter_In in Hc as [Hc _].
  auto.
Qed.

Lemma sign_value_chars (sign : str) (sg : Z) (c : codepoint) :
  sign_value sign = Some sg -> In c sign -> c = 43 \/ c = 45.
Proof.
  destruct sign as [|x [|y sign]]; cbn [sign_value In];
    try discriminate; try tauto.
  destruct (N.eqb_spec x 43) as [->|_].
  - intros _ [<-|[]]. now left.
  - destruct (N.eqb_spec x 45) as [->|_]; [|discriminate].
    intros _ [<-|[]]. now right.
Qed.

Lemma long_from_string_lead (limit : N) (sp s : str) :
  forallb Py.c_isspace sp = true ->
  Py.long_from_string limit (sp ++ s) = Py.long_from_string limit s.
Proof.
  intros H. unfold Py.long_from_string. now rewrite (skip_spaces_app _ _ H).
Qed.

Lemma transform_sign (sign rest : str) (sg : Z) :
  sign_value sign = Some sg ->
  Py.transform_decimal_and_space (sign ++ rest)
  = sign ++ Py.transform_decimal_and_space rest.
Proof.
  intros H. destruct sign as [|c [|c' sign]]; [reflexivity| |discriminate H].
  assert (Hc : c = 43 \/ c = 45)
    by (apply (sign_value_chars [c] sg); [exact H | now left]).
  destruct Hc as [->| ->]; reflexivity.
Qed.

Lemma filter_spaces_sign (sign : str) (sg : Z) :
  sign_value sign = Some sg ->
  @filter codepoint (fun c : N => negb (c =? 32)) sign = sign.
Proof.
  intros H. destruct sign as [|c [|c' sign]]; [reflexivity| |discriminate H].
  assert (Hc : c = 43 \/ c = 45)
    by (apply (sign_value_chars [c] sg); [exact H | now left]).
  destruct Hc as [->| ->]; reflexivity.
Qed.

(** X10. White space in front of the number and behind it does no harm,
    whatever its kind (a non-breaking space or a tab as well as a space),
    and a sign in front of the digits is read: such a text before the
    currency token gives the number that the digits spell, with its
    sign. *)
Theorem salary_with_space_and_sign {env : Environment}
        (lead sign ds trail : str) (sg : Z) :
  forallb blank lead = true -> forallb blank trail = true ->
  sign_value sign = Some sg ->
  ds <> [] -> forallb decimal_digit ds = true ->
  Py.too_many_digits int_max_str_digits (N.of_nat (List.length ds))
  = false ->
  parse_salary (lead ++ sign ++ ds ++ trail ++ rub)
  = Some (sg * decimal_value ds)%Z.
Proof.
  intros Hlead Htrail Hsign Hne Hds Hlim.
  assert (Hno : forall c, In c (lead ++ sign ++ ds ++ trail) -> c <> 1088).
  { intros c Hc ->. rewrite !in_app_iff in Hc.
    rewrite forallb_forall in Hlead, Htrail, Hds.
    destruct Hc as [Hc|[Hc|[Hc|Hc]]].
    - apply Hlead in Hc. discriminate Hc.
    - apply (sign_value_chars _ _ _ Hsign) in Hc. lia.
    - apply Hds in Hc. discriminate Hc.
    - apply Htrail in Hc. discriminate Hc. }
  assert (E : lead ++ sign ++ ds ++ trail ++ rub
              = (lead ++ sign ++ ds ++ trail) ++ rub ++ [])
    by now rewrite app_nil_r, <- !app_assoc.
  rewrite parse_salary_int, E, salary_text_rub.
  change (salary_text []) with (@nil N). rewrite app_nil_r.
  rewrite salary_text_filter, replace_rub_absent
    by (intros Hc; now apply (Hno 1088 Hc)).
  rewrite !filter_app, (filter_spaces_sign _ _ Hsign),
    (filter_spaces_digits _ Hds).
  apply filter_spaces_blank in Hlead, Htrail.
  set (L := @filter codepoint (fun c : N => negb (c =? 32)) lead) in *.
  set (T := @filter codepoint (fun c : N => negb (c =? 32)) trail) in *.
  unfold Py.int.
  destruct (transform_blanks L (sign ++ ds ++ T) Hlead) as (L' & -> & HL').
  rewrite (transform_sign _ _ _ Hsign), (transform_decimals _ _ Hds).
  destruct (transform_blanks T [] Htrail) as (T' & HT & HT').
  rewrite app_nil_r in HT. cbn [Py.transform_decimal_and_space] in HT.
  rewrite app_nil_r in HT. rewrite HT.
  rewrite (long_from_string_lead _ _ _ HL').
  rewrite (long_from_string_signed _ _ _ _ _ Hsign).
  - rewrite length_map, Hlim.
    assert (Hskip : Py.skip_spaces T' = []).
    { rewrite <- (app_nil_r T'). now rewrite (skip_spaces_app _ _ HT'). }
    rewrite Hskip. now rewrite ascii_value_of_decimals.
  - destruct ds; [congruence | discriminate].
  - now apply forallb_map_isdigit.
  - now apply c_isspace_stops.
Qed.

Lemma salary_with_space_and_sign_witness :
  let env := Sample.serving (Sample.document [Sample.developer]) in
  parse_salary ([nbsp; 32] ++ Py.lit "+" ++ Py.lit "90000"
                           ++ [8239; tab] ++ rub)
  = Some 90000%Z
  /\ parse_salary ([] ++ Py.lit "-" ++ [1637; 1632] ++ [] ++ rub)
     = Some (-50)%Z.
Proof.
  intros env. split.
  - rewrite (salary_with_space_and_sign
               [nbsp; 32] (Py.lit "+") (Py.lit "90000") [8239; tab] 1);
      try (vm_compute; reflexivity). discriminate.
  - rewrite (salary_with_space_and_sign
               [] (Py.lit "-") [1637; 1632] [] (-1));
      try (vm_compute; reflexivity). discriminate.
Defined.

Lemma last_app_nonempty (l1 l2 : str) (d d' : codepoint) :
  l2 <> [] -> last (l1 ++ l2) d = last l2 d'.
Proof.
  intros Hne. induction l1 as [|x l1 IH].
  - cbn [app]. destruct l2 as [|y l2]; [congruence|].
    now rewrite !last_cons_default.
  - cbn [app]. rewrite last_cons_default.
    destruct (l1 ++ l2) as [|y l] eqn:E.
    + apply app_eq_nil in E as [_ E]. congruence.
    + rewrite <- IH. now rewrite !last_cons_default.
Qed.

Lemma concat_nonempty (g : str) (groups : list str) :
  g <> [] -> List.concat (g :: groups) <> [].
Proof.
  intros Hg. cbn [List.concat]. destruct g; [congruence | discriminate].
Qed.

(** The digit scan runs through groups of digits with one underscore
    between each two of them. *)
Lemma scan_digits_groups (groups : list str) :
  groups <> [] ->
  Forall (fun g => g <> [] /\ forallb Py.c_isdigit g = true) groups ->
  forall (prev : codepoint) (n : N) (v : Z) (rest : str),
    Py.scan_digits prev n v (Py.join underscore groups ++ rest)
    = Py.scan_digits
        (last (List.concat groups) prev)
        (n + N.of_nat (List.length (List.concat groups)))
        (fold_left (fun v c => (10 * v + Z.of_N (c - 48))%Z)
                   (List.concat groups) v)
        rest.
Proof.
  induction groups as [|g [|g' groups] IH]; [congruence| |];
    intros _ Hall prev n v rest.
  - inversion Hall as [|? ? [Hne Hg] _]; subst.
    cbn [Py.join List.concat]. rewrite app_nil_r.
    exact (scan_digits_run g Hg prev n v rest).
  - inversion Hall as [|? ? [Hne Hg] Hrest]; subst.
    assert (Hne' : List.concat (g' :: groups) <> []).
    { inversion Hrest as [|? ? [Hg' _] _]; subst.
      now apply concat_nonempty. }
    change (Py.join underscore (g :: g' :: groups))
      with (g ++ underscore ++ Py.join underscore (g' :: groups)).
    rewrite <- !app_assoc. rewrite (scan_digits_run g Hg).
    unfold underscore at 1. cbn [app Py.scan_digits].
    change (95 =? 95) with true. cbn match.
    rewrite (isdigit_not_underscore _ (last_isdigit g prev Hne Hg)).
    rewrite (IH ltac:(discriminate) Hrest).
    change (List.concat (g :: g' :: groups))
      with (g ++ List.concat (g' :: groups)).
    rewrite (last_app_nonempty g _ prev 95 Hne'), fold_left_app, length_app.
    f_equal. lia.
Qed.

Lemma transform_groups (groups : list str) (rest : str) :
  Forall (fun g => forallb decimal_digit g = true) groups ->
  Py.transform_decimal_and_space (Py.join underscore groups ++ rest)
  = Py.join underscore (map (map ascii_of_decimal) groups)
    ++ Py.transform_decimal_and_space rest.
Proof.
  induction groups as [|g [|g' groups] IH]; intros Hall.
  - reflexivity.
  - inversion Hall; subst. cbn [Py.join map].
    now apply transform_decimals.
  - inversion Hall as [|? ? Hg Hrest]; subst.
    change (Py.join underscore (g :: g' :: groups))
      with (g ++ underscore ++ Py.join underscore (g' :: groups)).
    change (map (map ascii_of_decimal) (g :: g' :: groups))
      with (map ascii_of_decimal g
            :: map (map ascii_of_decimal) (g' :: groups)).
    change (Py.join underscore
              (map ascii_of_decimal g
               :: map (map ascii_of_decimal) (g' :: groups)))
      with (map ascii_of_decimal g ++ underscore
            ++ Py.join underscore
                 (map (map ascii_of_decimal) (g' :: groups))).
    rewrite <- !app_assoc. rewrite (transform_decimals _ _ Hg).
    unfold underscore at 1 3.
    cbn [app Py.transform_decimal_and_space].
    change (95 <? 127) with true. cbn match.
    now rewrite (IH Hrest).
Qed.

Lemma join_underscore_In (c : codepoint) (groups : list str) :
  In c (Py.join underscore groups) ->
  c = 95 \/ In c (List.concat groups).
Proof.
  induction groups as [|g [|g' groups] IH].
  - intros [].
  - cbn [Py.join List.concat]. rewrite app_nil_r. now right.
  - change (Py.join underscore (g :: g' :: groups))
      with (g ++ underscore ++ Py.join underscore (g' :: groups)).
    change (List.concat (g :: g' :: groups))
      with (g ++ List.concat (g' :: groups)).
    rewrite !in_app_iff. intros [H|[[<-|[]]|H]]; auto.
    destruct (IH H); auto.
Qed.

Lemma concat_map_map {A B : Type} (f : A -> B) (l : list (list A)) :
  List.concat (map (map f) l) = map f (List.concat l).
Proof.
  induction l as [|x l IH]; [reflexivity|]. cbn [map List.concat].
  now rewrite map_app, IH.
Qed.

Lemma Forall_concat_forallb {A : Type} (p : A -> bool) (l : list (list A)) :
  Forall (fun g => forallb p g = true) l ->
  forallb p (List.concat l) = true.
Proof.
  induction 1 as [|g l Hg _ IH]; [reflexivity|]. cbn [List.concat].
  now rewrite forallb_app, Hg, IH.
Qed.

(** X11. An underscore between two digits is read over, as in a numeric
    literal: groups of digits with one underscore between each two of
    them, before the currency token, give the number that all the digits
    spell. *)
Theorem salary_with_underscores {env : Environment} (groups : list str) :
  groups <> [] ->
  Forall (fun g => g <> [] /\ forallb decimal_digit g = true) groups ->
  Py.too_many_digits int_max_str_digits
    (N.of_nat (List.length (List.concat groups))) = false ->
  parse_salary (Py.join underscore groups ++ rub)
  = Some (decimal_value (List.concat groups)).
Proof.
  intros Hne Hall Hlim.
  assert (Hdigits : Forall (fun g => forallb decimal_digit g = true) groups).
  { apply Forall_forall. intros g Hg.
    rewrite Forall_forall in Hall. now destruct (Hall g Hg). }
  assert (Hcat := Forall_concat_forallb _ _ Hdigits).
  assert (Hascii : Forall (fun g => g <> [] /\ forallb Py.c_isdigit g = true)
                          (map (map ascii_of_decimal) groups)).
  { apply Forall_forall. intros g' Hg'.
    apply in_map_iff in Hg' as (g & <- & Hg).
    rewrite Forall_forall in Hall. destruct (Hall g Hg) as [Hg1 Hg2].
    split; [destruct g; [congruence | discriminate]|].
    now apply forallb_map_isdigit. }
  assert (Hneq : map (map ascii_of_decimal) groups <> [])
    by (destruct groups; [congruence | discriminate]).
  assert (Hclean : salary_text (Py.join underscore groups ++ rub)
                   = Py.join underscore groups).
  { assert (E : Py.join underscore groups ++ rub
                = Py.join underscore groups ++ rub ++ [])
      by now rewrite app_nil_r.
    rewrite E, salary_text_rub. change (salary_text []) with (@nil N).
    rewrite app_nil_r.
    apply salary_text_clean; intros Hc;
      apply join_underscore_In in Hc as [Hc|Hc]; try discriminate Hc;
      rewrite forallb_forall in Hcat; apply Hcat in Hc;
      discriminate Hc. }
  rewrite parse_salary_int, Hclean. unfold Py.int.
  rewrite <- (app_nil_r (Py.join underscore groups)).
  rewrite (transform_groups _ _ Hdigits).
  cbn [Py.transform_decimal_and_space].
  set (ascii := map (map ascii_of_decimal) groups) in *.
  assert (Hhead : exists d tail,
             Py.join underscore ascii ++ [] = d :: tail
             /\ Py.c_isdigit d = true).
  { destruct ascii as [|[|d g] [|g' gs]]; try congruence;
      inversion Hascii as [|? ? [Hg1 Hg2] _]; subst; try congruence;
      cbn [forallb] in Hg2; apply andb_true_iff in Hg2 as [Hd _].
    - exists d, (g ++ []). now split.
    - exists d, ((g ++ underscore ++ Py.join underscore (g' :: gs)) ++ []).
      now split. }
  destruct Hhead as (d & tail & Hhead & Hd).
  unfold Py.long_from_string. rewrite Hhead.
  rewrite (skip_spaces_digit _ _ Hd), (read_sign_digit _ _ Hd).
  cbn [Py.leading_underscore]. rewrite (isdigit_not_underscore _ Hd).
  rewrite <- Hhead, (scan_digits_groups ascii Hneq Hascii).
  assert (Hcat' : forallb Py.c_isdigit (List.concat ascii) = true).
  { apply Forall_concat_forallb, Forall_forall. intros g Hg.
    rewrite Forall_forall in Hascii. now destruct (Hascii g Hg). }
  assert (Hne' : List.concat ascii <> []).
  { destruct ascii as [|g gs]; [congruence|].
    inversion Hascii as [|? ? [Hg1 _] _]; subst.
    now apply concat_nonempty. }
  cbn [Py.scan_digits].
  rewrite (isdigit_not_underscore _ (last_isdigit _ 0 Hne' Hcat')).
  rewrite N.add_0_l.
  assert (Ec : List.concat ascii
               = map ascii_of_decimal (List.concat groups))
    by (unfold ascii; apply concat_map_map).
  rewrite Ec, length_map, Hlim.
  destruct (N.eqb_spec (N.of_nat (List.length (List.concat groups))) 0)
    as [E|_].
  - exfalso. apply Hne'. rewrite Ec.
    destruct (List.concat groups); [reflexivity | discriminate E].
  - cbn [Py.skip_spaces]. f_equal. rewrite Z.mul_1_l.
    exact (ascii_value_of_decimals _ Hcat).
Qed.

Lemma salary_with_underscores_witness :
  let env := Sample.serving (Sample.document [Sample.developer]) in
  let groups := [Py.lit "1"; Py.lit "250"; Py.lit "000"] in
  Py.join underscore groups = Py.lit "1_250_000"
  /\ parse_salary (Py.join underscore groups ++ rub) = Some 1250000%Z.
Proof.
  intros env groups. split; [reflexivity|].
  rewrite (salary_with_underscores groups).
  - vm_compute. reflexivity.
  - discriminate.
  - repeat constructor; discriminate.
  - vm_compute. reflexivity.
Defined.

(** ** The document tree *)

Lemma descendants_trans (a : Bs4.PageElement) :
  forall b c : Bs4.PageElement,
    In b (Bs4.descendants a) -> In c (Bs4.descendants b) ->
    In c (Bs4.descendants a).
Proof.
  induction a as [s|name class_ contents IH] using page_element_ind;
    intros b c Hb Hc; cbn [Bs4.descendants] in *; [destruct Hb|].
  apply in_flat_map in Hb as (child & Hchild & Hb).
  apply in_flat_map. exists child. split; [exact Hchild|].
  rewrite Forall_forall in IH.
  destruct Hb as [<-|Hb]; [now right|].
  right. exact (IH child Hchild b c Hb Hc).
Qed.

Lemma select_cases (selector : str) :
  (forall e, Bs4.select selector e = [])
  \/ exists cls,
       forall e, Bs4.select selector e
                 = filter (Bs4.has_class cls) (Bs4.descendants e).
Proof.
  unfold Bs4.select. destruct selector as [|d cls]; [now left|].
  destruct d as [|p]; [now left|].
  repeat (destruct p as [p|p|]; try (now left)).
  right. now exists cls.
Qed.

Lemma select_descendant (selector : str) (e x : Bs4.PageElement) :
  In x (Bs4.select selector e) -> In x (Bs4.descendants e).
Proof.
  destruct (select_cases selector) as [E|(cls & E)]; rewrite E;
    [intros []|].
  intros H. now apply filter_In in H.
Qed.

(** X12. A selector looks at the whole subtree of a block: what it finds
    below a tag that lies anywhere inside the block, it finds below the
    block as well. So an item block nested in another one is a block of
    the page of its own, and the fields of the inner block count as fields
    of the outer one too. *)
Theorem fields_found_at_any_depth (selector inner_selector : str)
        (outer inner x : Bs4.PageElement) :
  In inner (Bs4.select inner_selector outer) ->
  In x (Bs4.select selector inner) ->
  In x (Bs4.select selector outer)
  /\ Bs4.select_one selector outer <> None.
Proof.
  intros Hinner Hx. apply select_descendant in Hinner.
  assert (H : In x (Bs4.select selector outer)).
  { destruct (select_cases selector) as [E|(cls & E)]; rewrite E in *;
      [destruct Hx|].
    apply filter_In in Hx as [Hx1 Hx2]. apply filter_In.
    split; [|exact Hx2].
    exact (descendants_trans outer inner x Hinner Hx1). }
  split; [exact H|]. unfold Bs4.select_one.
  destruct (Bs4.select selector outer); [destruct H | discriminate].
Qed.

Lemma fields_found_at_any_depth_witness :
  let inner := Sample.engineer in
  let outer := Sample.element "vacancy-serp-item"
                 [Sample.leaf "vacancy-serp-item__snippet" (Py.lit "Outer");
                  inner] in
  let title := Sample.leaf "vacancy-serp-item__title" (Py.lit "Engineer") in
  In inner (Bs4.select (Py.lit ".vacancy-serp-item") outer)
  /\ In title (Bs4.select (Py.lit ".vacancy-serp-item__title") inner)
  /\ In title (Bs4.select (Py.lit ".vacancy-serp-item__title") outer).
Proof.
  intros inner outer title.
  assert (H1 : In inner (Bs4.select (Py.lit ".vacancy-serp-item") outer))
    by (vm_compute; left; reflexivity).
  assert (H2 : In title (Bs4.select (Py.lit ".vacancy-serp-item__title")
                                    inner))
    by (vm_compute; left; reflexivity).
  split; [exact H1|]. split; [exact H2|].
  exact (proj1 (fields_found_at_any_depth
                  (Py.lit ".vacancy-serp-item__title")
                  (Py.lit ".vacancy-serp-item") outer inner title H1 H2)).
Defined.

(** ** The UTF-8 reading of the body *)

Ltac reflect_bytes :=
  repeat match goal with
         | H : (_ && _) = true |- _ =>
             apply andb_true_iff in H; destruct H
         | H : (_ <=? _) = true |- _ => apply N.leb_le in H
         | H : (_ <? _) = true |- _ => apply N.ltb_lt in H
         | H : (_ <? _) = false |- _ => apply N.ltb_ge in H
         end.

Lemma scalar_value_intro (c : codepoint) :
  c < 55296 \/ (57343 < c /\ c < 1114112) -> scalar_value c = true.
Proof.
  unfold scalar_value. intros [H|[H1 H2]].
  - apply N.ltb_lt in H. now rewrite H.
  - apply N.ltb_lt in H1, H2. rewrite H1, H2. apply orb_true_r.
Qed.

Lemma second_of_3_range (b0 b1 : N) :
  Utf8.second_of_3 b0 b1 = true ->
  128 <= b1 <= 191
  /\ (b0 = 224 -> 160 <= b1) /\ (b0 = 237 -> b1 <= 159).
Proof.
  unfold Utf8.second_of_3, Utf8.continuation.
  destruct (N.eqb_spec b0 224); [|destruct (N.eqb_spec b0 237)];
    intros H; reflect_bytes; lia.
Qed.

Lemma second_of_4_range (b0 b1 : N) :
  Utf8.second_of_4 b0 b1 = true ->
  128 <= b1 <= 191
  /\ (b0 = 240 -> 144 <= b1) /\ (b0 = 244 -> b1 <= 143).
Proof.
  unfold Utf8.second_of_4, Utf8.continuation.
  destruct (N.eqb_spec b0 240); [|destruct (N.eqb_spec b0 244)];
    intros H; reflect_bytes; lia.
Qed.

(** The strict decoder yields Unicode scalar values only, and no more of
    them than there are bytes. *)
Lemma decode_values_scalar (n : nat) :
  forall (bs : list N) (s : str),
    (List.length bs <= n)%nat -> Utf8.decode_values bs = Some s ->
    forallb scalar_value s = true /\ (List.length s <= List.length bs)%nat.
Proof.
  induction n as [|n IH]; intros bs s Hlen H.
  - destruct bs; [|simpl in Hlen; lia]. injection H as <-.
    split; [reflexivity | apply Nat.le_refl].
  - destruct bs as [|b0 r0];
      [injection H as <-; split; [reflexivity | apply Nat.le_refl]|].
    cbn [Utf8.decode_values] in H. cbn [List.length] in Hlen.
    destruct (b0 <? 128) eqn:E0.
    + destruct (Utf8.decode_values r0) as [s0|] eqn:Er; [|discriminate].
      injection H as <-. destruct (IH r0 s0 ltac:(lia) Er) as [Hs Hl].
      cbn [forallb List.length]. rewrite Hs. split; [|lia].
      rewrite scalar_value_intro; [reflexivity|]. reflect_bytes. lia.
    + destruct ((194 <=? b0) && (b0 <=? 223)) eqn:E1.
      * destruct r0 as [|b1 r1]; [discriminate|].
        destruct (Utf8.continuation b1) eqn:C1; [|discriminate].
        destruct (Utf8.decode_values r1) as [s1|] eqn:Er; [|discriminate].
        injection H as <-. cbn [List.length] in Hlen.
        destruct (IH r1 s1 ltac:(lia) Er) as [Hs Hl].
        cbn [forallb List.length]. rewrite Hs. split; [|lia].
        rewrite scalar_value_intro; [reflexivity|].
        unfold Utf8.continuation in C1. reflect_bytes. lia.
      * destruct ((224 <=? b0) && (b0 <=? 239)) eqn:E2.
        -- destruct r0 as [|b1 [|b2 r2]]; try discriminate.
           destruct (Utf8.second_of_3 b0 b1) eqn:C1; [|discriminate].
           destruct (Utf8.continuation b2) eqn:C2; [|discriminate].
           cbn [andb] in H.
           destruct (Utf8.decode_values r2) as [s2|] eqn:Er; [|discriminate].
           injection H as <-. cbn [List.length] in Hlen.
           destruct (IH r2 s2 ltac:(lia) Er) as [Hs Hl].
           cbn [forallb List.length]. rewrite Hs. split; [|lia].
           rewrite scalar_value_intro; [reflexivity|].
           apply second_of_3_range in C1. destruct C1 as (R1 & R2 & R3).
           unfold Utf8.continuation in C2. reflect_bytes.
           destruct (N.eq_dec b0 224) as [->|N1];
             [specialize (R2 eq_refl); lia|].
           destruct (N.eq_dec b0 237) as [->|N2];
             [specialize (R3 eq_refl); lia|].
           lia.
        -- destruct ((240 <=? b0) && (b0 <=? 244)) eqn:E3; [|discriminate].
           destruct r0 as [|b1 [|b2 [|b3 r3]]]; try discriminate.
           destruct (Utf8.second_of_4 b0 b1) eqn:C1; [|discriminate].
           destruct (Utf8.continuation b2) eqn:C2; [|discriminate].
           destruct (Utf8.continuation b3) eqn:C3; [|discriminate].
           cbn [andb] in H.
           destruct (Utf8.decode_values r3) as [s3|] eqn:Er; [|discriminate].
           injection H as <-. cbn [List.length] in Hlen.
           destruct (IH r3 s3 ltac:(lia) Er) as [Hs Hl].
           cbn [forallb List.length]. rewrite Hs. split; [|lia].
           rewrite scalar_value_intro; [reflexivity|].
           apply second_of_4_range in C1. destruct C1 as (R1 & R2 & R3).
           unfold Utf8.continuation in C2, C3. reflect_bytes.
           destruct (N.eq_dec b0 240) as [->|N1];
             [specialize (R2 eq_refl); lia|].
           destruct (N.eq_dec b0 244) as [->|N2];
             [specialize (R3 eq_refl); lia|].
           lia.
Qed.

(** X13. When the detector names UTF-8, the text of the page is the
    strict UTF-8 reading of the body: it holds Unicode scalar values only,
    no surrogate and nothing above U+10FFFF (so it can be written back as
    UTF-8 to the debugging file), and it has no more characters than the
    body has bytes. *)
Theorem utf8_page_text {env : Environment} (content : bytes) (text : str) :
  chardet_detect content = Some utf_8 ->
  detect_and_decode content = Ok text ->
  Utf8.decode content = Some text
  /\ forallb scalar_value text = true
  /\ (List.length text <= List.length content)%nat.
Proof.
  unfold detect_and_decode. intros Hlabel. rewrite Hlabel. cbn [decode].
  change (Py.eqb utf_8 utf_8) with true. cbn match.
  destruct (Utf8.decode content) as [u|] eqn:E; [|discriminate].
  intros [= <-]. split; [reflexivity|].
  unfold Utf8.decode in E.
  destruct (decode_values_scalar _ _ _ (Nat.le_refl _) E) as [Hs Hl].
  rewrite length_map in Hl. now split.
Qed.

Lemma utf8_page_text_witness :
  let env := Sample.serving (Sample.document [Sample.developer]) in
  let content := [xd1; x80; xd1; x83; xd0; xb1; x2e]%byte in
  chardet_detect content = Some utf_8
  /\ detect_and_decode content = Ok rub
  /\ forallb scalar_value rub = true.
Proof.
  intros env content.
  assert (H1 : chardet_detect content = Some utf_8) by reflexivity.
  assert (H2 : detect_and_decode content = Ok rub)
    by (vm_compute; reflexivity).
  split; [exact H1|]. split; [exact H2|].
  exact (proj1 (proj2 (utf8_page_text content rub H1 H2))).
Defined.

(** ** The status of the answer *)

Section StatusFacts.

Context {env : Environment}.



End StatusFacts.



(** ** The digit limit *)

(** X15. A number with more digits than [int] accepts is no salary: when
    the interpreter has a digit limit and the sidebar text holds more
    decimal digits than the limit, and more than the 640 that are always
    accepted, [int] raises [ValueError] and the salary is absent, spaces
    between the digits or not. *)
Theorem too_many_digits_no_salary {env : Environment} (body : str) :
  forallb (fun c => decimal_digit c || (c =? 32)) body = true ->
  0 < int_max_str_digits ->
  int_max_str_digits < N.of_nat (List.length (filter decimal_digit body)) ->
  Py.MAX_STR_DIGITS_THRESHOLD
  < N.of_nat (List.length (filter decimal_digit body)) ->
  parse_salary (body ++ rub) = None.
Proof.
  intros Hbody Hpos Hlimit Hthreshold.
  rewrite parse_salary_int, (salary_text_digits_and_spaces body Hbody).
  set (ds := filter decimal_digit body) in *.
  assert (Hds : forallb decimal_digit ds = true)
    by apply filter_decimal_digits.
  unfold Py.int. rewrite <- (app_nil_r ds), (transform_decimals _ _ Hds).
  cbn [Py.transform_decimal_and_space].
  rewrite long_from_string_run.
  - rewrite length_map. unfold Py.too_many_digits.
    apply N.ltb_lt in Hpos, Hlimit, Hthreshold.
    now rewrite Hpos, Hlimit, Hthreshold.
  - destruct ds; [|discriminate]. cbn [List.length] in Hthreshold.
    unfold Py.MAX_STR_DIGITS_THRESHOLD in Hthreshold. lia.
  - now apply forallb_map_isdigit.
  - reflexivity.
Qed.

Lemma too_many_digits_no_salary_witness :
  let env := Sample.serving (Sample.document [Sample.developer]) in
  let body := repeat 57 4301 in
  0 < int_max_str_digits
  /\ int_max_str_digits < N.of_nat (List.length (filter decimal_digit body))
  /\ parse_salary (body ++ rub) = None.
Proof.
  intros env body.
  assert (H0 : forallb (fun c => decimal_digit c || (c =? 32)) body = true)
    by (vm_compute; reflexivity).
  assert (H1 : 0 < int_max_str_digits) by (vm_compute; reflexivity).
  assert (H2 : int_max_str_digits
               < N.of_nat (List.length (filter decimal_digit body)))
    by (vm_compute; reflexivity).
  assert (H3 : Py.MAX_STR_DIGITS_THRESHOLD
               < N.of_nat (List.length (filter decimal_digit body)))
    by (vm_compute; reflexivity).
  split; [exact H1|]. split; [exact H2|].
  exact (too_many_digits_no_salary body H0 H1 H2 H3).
Defined.
